(** * lwpr-lite build metadata: the pkg-config descriptor generator
      (build/scons/util/_pkg_config.py) and the extension packaging script
      (python/setup.py), embedded as Rocq functions.

    Python values are modelled through the two protocols the generator
    uses on them (str() and iteration); dictionaries are [gmap]s with
    string keys; exceptions are the left summand of a result type; the
    file system is threaded explicitly through [save_pkg_config_descriptor]. *)

From Stdlib Require Import String Ascii List Bool Arith Lia.
From stdpp Require Import gmap strings list fin_maps.
Import ListNotations.
Open Scope string_scope.

(** ** Python objects, exceptions *)

(** What the generator observes of a value: [str(v)] (which is also what
    ['{}'.format(v)] and [Template.substitute] render) and the sequence
    [for x in v] runs through.  The environment holds strings and
    sequences, all of them iterable. *)
Class PyObject (V : Type) := {
  py_str : V -> string;
  py_iter : V -> list V
}.

Inductive exn : Type :=
| KeyError (key : string)
| ValueError
| IOError (path : string).

Definition result (A : Type) : Type := (exn + A)%type.

Definition raise {A : Type} (e : exn) : result A := inl e.
Definition ret {A : Type} (a : A) : result A := inr a.
Definition bind {A B : Type} (m : result A) (k : A -> result B) : result B :=
  match m with
  | inl e => inl e
  | inr a => k a
  end.

Notation "x <- m ;; k" := (bind m (fun x => k))
  (at level 100, m at next level, right associativity).

(** [d[k]] on a dictionary. *)
Definition getitem {A : Type} (d : gmap string A) (k : string) : result A :=
  match d !! k with
  | Some v => ret v
  | None => raise (KeyError k)
  end.

(** [sep.join(l)] *)
Definition join (sep : string) (l : list string) : string := String.concat sep l.

(** ['<flag>{}'.format(x)] *)
Definition format1 {V : Type} `{PyObject V} (flag : string) (x : V) : string :=
  flag +:+ py_str x.

Definition nl : string := String "010" EmptyString.

(** The one-character strings a Python str iterates over. *)
Fixpoint chars (s : string) : list string :=
  match s with
  | EmptyString => []
  | String c s' => String c EmptyString :: chars s'
  end.

(** ** string.Template *)

Module Template.

(** A template is cut by the pattern
    [\$(?:(?P<escaped>\$)|(?P<named>id)|{(?P<braced>id)}|(?P<invalid>))]
    with [id = [_a-z][_a-z0-9]*], case-insensitive. *)
Inductive token : Type :=
| Text (s : string)
| Escaped
| Named (id : string)
| Invalid.

Definition is_alpha (c : ascii) : bool :=
  let n := nat_of_ascii c in
  ((65 <=? n) && (n <=? 90) || (97 <=? n) && (n <=? 122))%nat.

Definition is_digit (c : ascii) : bool :=
  let n := nat_of_ascii c in ((48 <=? n) && (n <=? 57))%nat.

Definition id_start (c : ascii) : bool := Ascii.eqb c "_" || is_alpha c.
Definition id_char (c : ascii) : bool := id_start c || is_digit c.

(** Longest run of identifier characters at the head of [s], and the rest. *)
Fixpoint span_id (s : string) : string * string :=
  match s with
  | String c s' =>
      if id_char c then let (i, r) := span_id s' in (String c i, r)
      else (EmptyString, s)
  | EmptyString => (EmptyString, EmptyString)
  end.

(** An identifier at the head of [s]: its name and what follows it. *)
Definition take_id (s : string) : option (string * string) :=
  match s with
  | String c _ => if id_start c then Some (span_id s) else None
  | EmptyString => None
  end.

Definition push_char (c : ascii) (ts : list token) : list token :=
  match ts with
  | Text t :: ts' => Text (String c t) :: ts'
  | _ => Text (String c EmptyString) :: ts
  end.

(** Left-to-right scan; [None] only when the fuel runs out. *)
Fixpoint scan (fuel : nat) (s : string) : option (list token) :=
  match fuel with
  | O => None
  | S fuel' =>
      match s with
      | EmptyString => Some []
      | String c rest =>
          if Ascii.eqb c "$" then
            match rest with
            | String d rest' =>
                if Ascii.eqb d "$" then cons Escaped <$> scan fuel' rest'
                else match take_id rest with
                     | Some (i, r) => cons (Named i) <$> scan fuel' r
                     | None =>
                         match (if Ascii.eqb d "{" then take_id rest' else None) with
                         | Some (i, String e r) =>
                             if Ascii.eqb e "}" then cons (Named i) <$> scan fuel' r
                             else cons Invalid <$> scan fuel' rest
                         | _ => cons Invalid <$> scan fuel' rest
                         end
                     end
            | EmptyString => Some [Invalid]
            end
          else push_char c <$> scan fuel' rest
      end
  end.

Definition tokenize (s : string) : option (list token) :=
  scan (S (String.length s)) s.

(** The placeholders a token list refers to, in order of occurrence. *)
Fixpoint placeholders (ts : list token) : list string :=
  match ts with
  | Named i :: ts' => i :: placeholders ts'
  | _ :: ts' => placeholders ts'
  | [] => []
  end.

Section Substitute.
Context {M : Type} `{PyObject M}.

(** [convert] of [Template.substitute], applied match by match. *)
Fixpoint convert_all (ts : list token) (mapping : gmap string M) : result string :=
    match ts with
    | [] => ret EmptyString
    | Text s :: ts' =>
        r <- convert_all ts' mapping ;; ret (s +:+ r)
    | Escaped :: ts' =>
        r <- convert_all ts' mapping ;; ret ("$" +:+ r)
    | Named i :: ts' =>
        v <- getitem mapping i ;;
        r <- convert_all ts' mapping ;; ret (py_str v +:+ r)
    | Invalid :: _ => raise ValueError
    end.

Definition substitute (template : string) (mapping : gmap string M) : result string :=
    match tokenize template with
    | Some ts => convert_all ts mapping
    | None => raise ValueError
    end.
End Substitute.

End Template.

(** ** build/scons/util/_pkg_config.py *)

Definition pc_template : string := "
prefix=${lwpr}
exec_prefix=${prefix}
includedir=${prefix}/include
libdir=${exec_prefix}/lib

Name: ${libname}
Description: The Dilithium Dynamic Programming library
Version: 0.0.1
Cflags: ${compile_flags} ${include_paths} -I${includedir}
Libs: ${link_flags} ${lib_paths} -L${libdir} ${libs}
".

(** What [mapping] holds: objects taken over from the environment (or the
    [libname] argument) and strings built by the generator. *)
Inductive bound (V : Type) : Type :=
| Obj (v : V)
| Str (s : string).
Arguments Obj {V} v.
Arguments Str {V} s.

#[export] Instance bound_object {V : Type} `{PyObject V} : PyObject (bound V) := {
  py_str b := match b with Obj v => py_str v | Str s => s end;
  py_iter b := match b with Obj v => Obj <$> py_iter v | Str s => Str <$> chars s end
}.

(** The files of the output tree, and the paths [open(_, 'w')] refuses. *)
Record filesystem : Type := {
  files : gmap string string;
  unwritable : gset string
}.

(** [open(filename, 'w')]: the file is created, or cut to length zero. *)
Definition open_w (filename : string) (fs : filesystem) : result filesystem :=
  if decide (filename ∈ unwritable fs) then raise (IOError filename)
  else ret {| files := <[filename := EmptyString]> (files fs);
              unwritable := unwritable fs |}.

(** [outstream.write(text)] on the stream opened on [filename]. *)
Definition write (filename text : string) (fs : filesystem) : filesystem :=
  {| files := alter (fun old => old +:+ text) filename (files fs);
     unwritable := unwritable fs |}.

(** The keys [save_pkg_config_descriptor] reads, in the order it reads them. *)
Definition required_keys : list string :=
  ["prefix"; "lwpr"; "CCFLAGS"; "CPPPATH"; "LINKFLAGS"; "LIBS"; "LIBPATH"].

Definition first_missing {V : Type} (env : gmap string V) : option string :=
  List.find (fun k => bool_decide (env !! k = None)) required_keys.

Section Generator.
Context {V : Type} `{PyObject V}.

(** The statements of the [with] body up to [mapping['lib_paths']]. *)
Definition build_mapping (env : gmap string V) (libname : V)
  : result (gmap string (bound V)) :=
  let mapping : gmap string (bound V) := ∅ in
  prefix <- getitem env "prefix" ;;
  let mapping := <["prefix" := Obj prefix]> mapping in
  let mapping := <["exec_prefix" := Str "${exec_prefix}"]> mapping in
  let mapping := <["includedir" := Str "${includedir}"]> mapping in
  let mapping := <["libdir" := Str "${libdir}"]> mapping in
  lwpr <- getitem env "lwpr" ;;
  let mapping := <["lwpr" := Obj lwpr]> mapping in
  let mapping := <["libname" := Obj libname]> mapping in
  ccflags <- getitem env "CCFLAGS" ;;
  let mapping := <["compile_flags" := Obj ccflags]> mapping in
  cpppath <- getitem env "CPPPATH" ;;
  let mapping :=
    <["include_paths" := Str (join " " (format1 "-I" <$> py_iter cpppath))]> mapping in
  linkflags <- getitem env "LINKFLAGS" ;;
  let mapping := <["link_flags" := Obj linkflags]> mapping in
  libs <- getitem env "LIBS" ;;
  let mapping :=
    <["libs" := Str (join " " ((format1 "-l" <$> py_iter libs) ++ [format1 "-l" libname]))]>
      mapping in
  libpath <- getitem env "LIBPATH" ;;
  let mapping :=
    <["lib_paths" := Str (join " " (format1 "-L" <$> py_iter libpath))]> mapping in
  ret mapping.

(** The text handed to [outstream.write]. *)
Definition render (env : gmap string V) (libname : V) : result string :=
  mapping <- build_mapping env libname ;;
  Template.substitute pc_template mapping.

(** The call's outcome and the file system it leaves.  An exception raised
    inside the [with] block closes the stream and propagates. *)
Definition save_pkg_config_descriptor
    (env : gmap string V) (libname : V) (filename : string) (fs : filesystem)
  : result unit * filesystem :=
  match open_w filename fs with
  | inl e => (inl e, fs)
  | inr fs1 =>
      match render env libname with
      | inl e => (inl e, fs1)
      | inr text => (ret tt, write filename text fs1)
      end
  end.
End Generator.

(** The values a SCons construction environment hands over: plain strings,
    and flag or path sequences whose [str()] joins the elements with single
    spaces (SCons's CLVar). *)
Inductive scons_value : Type :=
| SStr (s : string)
| CLVar (l : list string).

#[export] Instance scons_object : PyObject scons_value := {
  py_str v := match v with SStr s => s | CLVar l => join " " l end;
  py_iter v := match v with SStr s => SStr <$> chars s | CLVar l => SStr <$> l end
}.

(** ** python/setup.py *)

Module Setup.

Record Extension : Type := {
  ext_name : string;
  language : string;
  sources : list string;
  library_dirs : list string;
  runtime_library_dirs : list string;
  extra_objects : list string;
  extra_compile_args : list string;
  libraries : list string;
  include_dirs : list string
}.

(** The keyword arguments of the [setup] call. *)
Record setup_call : Type := {
  name : string;
  version : string;
  description : string;
  packages : list string;
  package_dir : list (string * string);
  install_requires : list string;
  extras_require : list (string * list string);
  ext_modules : list Extension
}.

Definition libname_for (debug_mode : bool) : string :=
  if debug_mode then "lwpr-debug" else "lwpr".

Section Main.
(** Module-level paths, and what [find_packages('src')] lists. *)
Variables (src_dir builddir : string) (found_packages : list string).

Definition main (argv : list string) : setup_call :=
    let debug_mode := bool_decide ("--debug" ∈ argv) in
    let install_requires := ["setuptools"; "numpy"] in
    let libname := libname_for debug_mode in
    let module := {|
      ext_name := "lwpr";
      language := "c";
      sources := ["src/lwprmodule.c"];
      library_dirs := [builddir];
      runtime_library_dirs := [builddir];
      extra_objects := [];
      extra_compile_args := [];
      libraries := ["lwpr"];
      include_dirs := [src_dir] |} in
    {| name := "LWPR Module";
       version := "1.1";
       description := "Python wrapper around LWPR library";
       packages := found_packages;
       package_dir := [("", "src")];
       install_requires := install_requires;
       extras_require := [("dev", ["pytest"; "tox"]); ("test", ["pytest"; "tox"])];
       ext_modules := [module] |}.
End Main.

End Setup.

(** ** Reading a descriptor back: its lines *)

Definition is_nl (c : ascii) : bool := Ascii.eqb c "010".

(** [text.split('\n')] *)
Fixpoint lines (s : string) : list string :=
  match s with
  | EmptyString => [EmptyString]
  | String c s' =>
      if is_nl c then EmptyString :: lines s'
      else match lines s' with
           | l :: ls => String c l :: ls
           | [] => [String c EmptyString]
           end
  end.

Fixpoint single_line (s : string) : bool :=
  match s with
  | EmptyString => true
  | String c s' => negb (is_nl c) && single_line s'
  end.

(** The scenario of the specification, with the package root it leaves out. *)
Definition scenario_env : gmap string scons_value :=
  <["prefix" := SStr "/usr/local"]>
  (<["CCFLAGS" := CLVar ["-O2"]]>
  (<["CPPPATH" := CLVar ["/usr/local/include"]]>
  (<["LINKFLAGS" := CLVar []]>
  (<["LIBPATH" := CLVar ["/usr/local/lib"]]>
  (<["LIBS" := CLVar ["m"]]> ∅))))).

Definition scenario_env_rooted : gmap string scons_value :=
  <["lwpr" := SStr "/opt/lwpr"]> scenario_env.

(** Every string the generator puts into the descriptor prints on one line. *)
Definition flat_value {V : Type} `{PyObject V} (v : V) : bool :=
  single_line (py_str v) && forallb (fun x => single_line (py_str x)) (py_iter v).

Definition single_line_values {V : Type} `{PyObject V}
    (env : gmap string V) (libname : V) : bool :=
  single_line (py_str libname) &&
  forallb (fun k => match env !! k with Some v => flat_value v | None => true end)
          required_keys.

(** The lines of a descriptor rendered from the seven environment values. *)
Definition descriptor_lines {V : Type} `{PyObject V}
    (prefix lwpr ccflags cpppath linkflags libs libpath libname : V) : list string :=
  [ "";
    "prefix=" +:+ py_str lwpr;
    "exec_prefix=" +:+ py_str prefix;
    "includedir=" +:+ py_str prefix +:+ "/include";
    "libdir=${exec_prefix}/lib";
    "";
    "Name: " +:+ py_str libname;
    "Description: The Dilithium Dynamic Programming library";
    "Version: 0.0.1";
    "Cflags: " +:+ py_str ccflags +:+ " "
      +:+ join " " (format1 "-I" <$> py_iter cpppath) +:+ " -I${includedir}";
    "Libs: " +:+ py_str linkflags +:+ " "
      +:+ join " " (format1 "-L" <$> py_iter libpath) +:+ " -L${libdir} "
      +:+ join " " ((format1 "-l" <$> py_iter libs) ++ [format1 "-l" libname])%list;
    "" ].

(** The scenario with the link flags left out of the environment. *)
Definition scenario_env_unlinked : gmap string scons_value :=
  delete "LINKFLAGS" scenario_env_rooted.

(** The descriptor of the scenario. *)
Definition scenario_text : string := "
prefix=/opt/lwpr
exec_prefix=/usr/local
includedir=/usr/local/include
libdir=${exec_prefix}/lib

Name: foo
Description: The Dilithium Dynamic Programming library
Version: 0.0.1
Cflags: -O2 -I/usr/local/include -I${includedir}
Libs:  -L/usr/local/lib -L${libdir} -lm -lfoo
".

Definition empty_tree : filesystem := {| files := ∅; unwritable := ∅ |}.

Definition installed_tree : filesystem :=
  {| files := {[ "lwpr.pc" := "prefix=/old" ]}; unwritable := ∅ |}.

(** The mapping the generator builds for the scenario. *)
Definition scenario_mapping : gmap string (bound scons_value) :=
  <["lib_paths" := Str "-L/usr/local/lib"]>
  (<["libs" := Str "-lm -lfoo"]>
  (<["link_flags" := Obj (CLVar [])]>
  (<["include_paths" := Str "-I/usr/local/include"]>
  (<["compile_flags" := Obj (CLVar ["-O2"])]>
  (<["libname" := Obj (SStr "foo")]>
  (<["lwpr" := Obj (SStr "/opt/lwpr")]>
  (<["libdir" := Str "${libdir}"]>
  (<["includedir" := Str "${includedir}"]>
  (<["exec_prefix" := Str "${exec_prefix}"]>
  (<["prefix" := Obj (SStr "/usr/local")]> ∅)))))))))).

(** ** python/setup.py: the build command and the module-level paths *)

Module BuildExt.

Definition strict_prototypes : string := "-Wstrict-prototypes".

(** [[x for x in self.compiler.compiler_so if x != '-Wstrict-prototypes']] *)
Definition filtered (compiler_so : list string) : list string :=
  List.filter (fun x => negb (String.eqb x strict_prototypes)) compiler_so.

(** [build_extensions]: the compiler's [compiler_so] is replaced, then the
    inherited method runs on the compiler so changed. *)
Definition build_extensions {R : Type} (super_build_extensions : list string -> R)
    (compiler_so : list string) : R :=
  let compiler_so := filtered compiler_so in
  super_build_extensions compiler_so.

End BuildExt.

(** [os.path] on a POSIX system. *)
Module PosixPath.

Definition is_sep (c : ascii) : bool := Ascii.eqb c "/".

(** [path.split('/')] *)
Fixpoint split_sep (s : string) : list string :=
  match s with
  | EmptyString => [EmptyString]
  | String c s' =>
      if is_sep c then EmptyString :: split_sep s'
      else match split_sep s' with
           | l :: ls => String c l :: ls
           | [] => [String c EmptyString]
           end
  end.

Definition startswith (p s : string) : bool := String.prefix p s.

(** [path.endswith('/')] *)
Fixpoint endswith_sep (s : string) : bool :=
  match s with
  | EmptyString => false
  | String c EmptyString => is_sep c
  | String _ s' => endswith_sep s'
  end.

Definition is_empty (s : string) : bool :=
  match s with EmptyString => true | _ => false end.

(** One round of the loop of [join(a, *p)]. *)
Definition join_step (path b : string) : string :=
  if startswith "/" b then b
  else if is_empty path || endswith_sep path then path +:+ b
  else path +:+ "/" +:+ b.

Definition path_join (a : string) (p : list string) : string :=
  fold_left join_step p a.

(** One round of the loop of [normpath] over the components. *)
Definition norm_step (initial_slashes : nat) (new_comps : list string) (comp : string)
  : list string :=
  if String.eqb comp "" || String.eqb comp "." then new_comps
  else if negb (String.eqb comp "..")
          || (Nat.eqb initial_slashes 0 && bool_decide (new_comps = []))
          || (negb (bool_decide (new_comps = []))
              && String.eqb (List.last new_comps "") "..")
       then (new_comps ++ [comp])%list
       else if negb (bool_decide (new_comps = [])) then removelast new_comps
            else new_comps.

Definition slashes (n : nat) : string := String.concat "" (repeat "/" n).

Definition normpath (path : string) : string :=
  if is_empty path then "."
  else
    let initial_slashes :=
      if startswith "/" path then
        if startswith "//" path && negb (startswith "///" path) then 2%nat else 1%nat
      else 0%nat in
    let comps := fold_left (norm_step initial_slashes) (split_sep path) [] in
    let path := slashes initial_slashes +:+ join "/" comps in
    if is_empty path then "." else path.

(** [abspath], with the working directory [os.getcwd()] made explicit. *)
Definition abspath (cwd path : string) : string :=
  let path := if startswith "/" path then path else path_join cwd [path] in
  normpath path.

(** No separator in a component, which is not empty, [.] or [..]. *)
Fixpoint sep_free (s : string) : bool :=
  match s with
  | EmptyString => true
  | String c s' => negb (is_sep c) && sep_free s'
  end.

(** A component a path can be cut into: not empty, no separator in it. *)
Definition solid (comp : string) : bool :=
  sep_free comp && negb (String.eqb comp "").

Definition plain (comp : string) : bool :=
  sep_free comp && negb (String.eqb comp "") && negb (String.eqb comp ".")
  && negb (String.eqb comp "..").

(** The absolute path with the components [comps]. *)
Definition rooted (comps : list string) : string := "/" +:+ join "/" comps.

End PosixPath.

Module SetupPaths.
Import PosixPath.

Section Paths.
(** [os.getcwd()], and [here = path.abspath(path.dirname(__file__))]. *)
Variables (cwd here : string).

Definition base : string := abspath cwd (path_join here [".."]).
Definition src_dir : string := abspath cwd (path_join here [".."; "src"]).
Definition vendordir : string := abspath cwd (path_join here [".."; "vendor"]).
Definition builddir : string := abspath cwd (path_join here [".."; ".build"]).
End Paths.

End SetupPaths.

(** An environment whose path and library sequences are empty. *)
Definition bare_env : gmap string scons_value :=
  <["prefix" := SStr "/usr"]>
  (<["lwpr" := SStr "/opt/lwpr"]>
  (<["CCFLAGS" := CLVar ["-O2"]]>
  (<["CPPPATH" := CLVar []]>
  (<["LINKFLAGS" := CLVar ["-s"]]>
  (<["LIBPATH" := CLVar []]>
  (<["LIBS" := CLVar []]> ∅)))))).

(** The scenario with its include path handed over as one string. *)
Definition string_path_env : gmap string scons_value :=
  <["CPPPATH" := SStr "/inc"]> scenario_env_rooted.

(** The scenario with a key the generator does not read. *)
Definition crowded_env : gmap string scons_value :=
  <["CC" := SStr "gcc"]> scenario_env_rooted.

(** The texts rendered from these environments for the library [foo]. *)
Definition bare_text : string :=
  Eval vm_compute in
    match render bare_env (SStr "foo") with inr text => text | inl _ => "" end.

Definition string_path_text : string :=
  Eval vm_compute in
    match render string_path_env (SStr "foo") with inr text => text | inl _ => "" end.

(** * Properties *)

(** ** Strings and lines *)

Lemma append_cons (c : ascii) (s t : string) :
  String c s +:+ t = String c (s +:+ t).
Proof. reflexivity. Qed.

Lemma append_nil_r (s : string) : s +:+ "" = s.
Proof.
  induction s as [|c s IH]; [reflexivity |].
  now rewrite append_cons, IH.
Qed.

Lemma append_assoc (a b c : string) : (a +:+ b) +:+ c = a +:+ (b +:+ c).
Proof.
  induction a as [|x a IH]; [reflexivity |].
  now rewrite !append_cons, IH.
Qed.

Lemma single_line_app (a b : string) :
  single_line (a +:+ b) = single_line a && single_line b.
Proof.
  induction a as [|c a IH]; [reflexivity |].
  rewrite append_cons. simpl. rewrite IH. now rewrite andb_assoc.
Qed.

Lemma lines_nonempty (s : string) : lines s <> [].
Proof.
  induction s as [|c s IH]; simpl; [discriminate |].
  destruct (is_nl c); [discriminate |].
  destruct (lines s); discriminate.
Qed.

Lemma lines_single (s : string) : single_line s = true -> lines s = [s].
Proof.
  induction s as [|c s IH]; simpl; [reflexivity |].
  intros Hs. apply andb_prop in Hs as [Hc Hs].
  apply negb_true_iff in Hc. rewrite Hc, (IH Hs). reflexivity.
Qed.

Lemma lines_cons (l rest : string) :
  single_line l = true -> lines (l +:+ nl +:+ rest) = l :: lines rest.
Proof.
  induction l as [|c l IH]; [reflexivity |].
  rewrite append_cons. simpl.
  intros Hs. apply andb_prop in Hs as [Hc Hs].
  apply negb_true_iff in Hc. rewrite Hc, (IH Hs). reflexivity.
Qed.

Lemma lines_join (ls : list string) :
  ls <> [] -> forallb single_line ls = true -> lines (join nl ls) = ls.
Proof.
  induction ls as [|l ls IH]; [congruence |].
  intros _ Hall. simpl in Hall. apply andb_prop in Hall as [Hl Hall].
  destruct ls as [|l' ls].
  - simpl. now apply lines_single.
  - change (join nl (l :: l' :: ls)) with (l +:+ nl +:+ join nl (l' :: ls)).
    rewrite (lines_cons _ _ Hl), IH; [reflexivity | discriminate | exact Hall].
Qed.

Lemma join_cons2 (sep x y : string) (l : list string) :
  join sep (x :: y :: l) = x +:+ sep +:+ join sep (y :: l).
Proof. reflexivity. Qed.

Lemma join_app (sep : string) (a b : list string) :
  a <> [] -> b <> [] -> join sep (a ++ b) = join sep a +:+ sep +:+ join sep b.
Proof.
  induction a as [|x a IH]; [congruence |].
  intros _ Hb. destruct a as [|y a].
  - destruct b as [|z b]; [congruence | reflexivity].
  - change ((x :: y :: a) ++ b)%list with (x :: y :: (a ++ b))%list.
    rewrite !join_cons2. change (y :: a ++ b)%list with ((y :: a) ++ b)%list.
    rewrite IH; [| discriminate | exact Hb].
    now rewrite !append_assoc.
Qed.

Lemma join_snoc (sep x : string) (a : list string) :
  exists front, join sep (a ++ [x]) = front +:+ x.
Proof.
  destruct a as [|y a].
  - exists "". reflexivity.
  - exists (join sep (y :: a) +:+ sep).
    rewrite join_app by discriminate. simpl join at 2.
    now rewrite append_assoc.
Qed.

Lemma single_line_join (sep : string) (l : list string) :
  single_line sep = true -> forallb single_line l = true ->
  single_line (join sep l) = true.
Proof.
  intros Hsep. induction l as [|x l IH]; [reflexivity |].
  simpl forallb. intros Hall. apply andb_prop in Hall as [Hx Hall].
  destruct l as [|y l]; [exact Hx |].
  rewrite join_cons2, !single_line_app, Hx, Hsep, IH; [reflexivity | exact Hall].
Qed.

Lemma single_line_format {V : Type} `{PyObject V} (flag : string) (l : list V) :
  single_line flag = true ->
  forallb (fun x => single_line (py_str x)) l = true ->
  forallb single_line (format1 flag <$> l) = true.
Proof.
  intros Hflag. induction l as [|x l IH]; [reflexivity |].
  simpl. intros Hall. apply andb_prop in Hall as [Hx Hall].
  unfold format1 at 1. rewrite single_line_app, Hflag, Hx. simpl. now apply IH.
Qed.

(** ** The template *)

Lemma tokenize_pc_template :
  Template.tokenize pc_template = Some
    [ Template.Text (nl +:+ "prefix="); Template.Named "lwpr";
      Template.Text (nl +:+ "exec_prefix="); Template.Named "prefix";
      Template.Text (nl +:+ "includedir="); Template.Named "prefix";
      Template.Text ("/include" +:+ nl +:+ "libdir="); Template.Named "exec_prefix";
      Template.Text ("/lib" +:+ nl +:+ nl +:+ "Name: "); Template.Named "libname";
      Template.Text (nl +:+ "Description: The Dilithium Dynamic Programming library"
                     +:+ nl +:+ "Version: 0.0.1" +:+ nl +:+ "Cflags: ");
      Template.Named "compile_flags"; Template.Text " ";
      Template.Named "include_paths"; Template.Text " -I";
      Template.Named "includedir"; Template.Text (nl +:+ "Libs: ");
      Template.Named "link_flags"; Template.Text " ";
      Template.Named "lib_paths"; Template.Text " -L";
      Template.Named "libdir"; Template.Text " ";
      Template.Named "libs"; Template.Text nl ].
Proof. vm_compute. reflexivity. Qed.

Lemma span_id_length (s : string) :
  String.length (snd (Template.span_id s)) <= String.length s.
Proof.
  induction s as [|c s IH]; simpl; [lia |].
  destruct (Template.id_char c); simpl; [| lia].
  destruct (Template.span_id s) as [i r]. simpl in *. lia.
Qed.

Lemma take_id_length (s i r : string) :
  Template.take_id s = Some (i, r) -> String.length r < String.length s.
Proof.
  destruct s as [|c s]; simpl; [discriminate |].
  destruct (Template.id_start c) eqn:Hc; [| discriminate].
  unfold Template.id_char. rewrite Hc. simpl.
  pose proof (span_id_length s) as Hlen.
  destruct (Template.span_id s) as [i' r']. simpl in Hlen.
  intros [= <- <-]. lia.
Qed.

(** The scan never runs out of the fuel [tokenize] gives it. *)
Lemma scan_total (fuel : nat) (s : string) :
  String.length s < fuel -> is_Some (Template.scan fuel s).
Proof.
  revert s. induction fuel as [|fuel IH]; intros s Hlen; [lia |].
  assert (Hmap : forall (f : list Template.token -> list Template.token) r,
             String.length r < fuel -> is_Some (f <$> Template.scan fuel r)).
  { intros f r Hr. destruct (IH r Hr) as [ts ->]. now exists (f ts). }
  destruct s as [|c rest]; simpl; [now eexists |].
  simpl in Hlen.
  destruct (Ascii.eqb c "$"); [| apply Hmap; lia].
  destruct rest as [|d rest']; [now eexists |].
  simpl in Hlen.
  destruct (Ascii.eqb d "$"); [apply Hmap; lia |].
  destruct (Template.take_id (String d rest')) as [[i r]|] eqn:Hid.
  - apply take_id_length in Hid. simpl in Hid. apply Hmap. lia.
  - destruct (Ascii.eqb d "{"); [| apply Hmap; simpl; lia].
    destruct (Template.take_id rest') as [[i [|e r]]|] eqn:Hbr;
      try (apply Hmap; simpl; lia).
    apply take_id_length in Hbr. simpl in Hbr.
    destruct (Ascii.eqb e "}"); apply Hmap; simpl; lia.
Qed.

Lemma tokenize_total (s : string) : is_Some (Template.tokenize s).
Proof. apply scan_total. lia. Qed.

(** ** The generator *)

Section Descriptor.
Context {V : Type} `{PyObject V}.
Implicit Types (env : gmap string V) (libname : V).

Lemma first_missing_None env :
  first_missing env = None ->
  exists prefix lwpr ccflags cpppath linkflags libs libpath,
    env !! "prefix" = Some prefix /\ env !! "lwpr" = Some lwpr /\
    env !! "CCFLAGS" = Some ccflags /\ env !! "CPPPATH" = Some cpppath /\
    env !! "LINKFLAGS" = Some linkflags /\ env !! "LIBS" = Some libs /\
    env !! "LIBPATH" = Some libpath.
Proof.
  unfold first_missing, required_keys. simpl.
  repeat (case_bool_decide; [discriminate |]). intros _.
  repeat match goal with
         | Hk : ?o <> None |- _ =>
             let v := fresh "v" in destruct o as [v|] eqn:?; [clear Hk | congruence]
         end.
  eauto 20.
Qed.

Lemma getitem_missing env k : env !! k = None -> getitem env k = raise (KeyError k).
Proof. unfold getitem. now intros ->. Qed.

Lemma getitem_present env k v : env !! k = Some v -> getitem env k = ret v.
Proof. unfold getitem. now intros ->. Qed.

Lemma build_mapping_missing env libname k :
  first_missing env = Some k -> build_mapping env libname = raise (KeyError k).
Proof.
  unfold first_missing, required_keys, build_mapping. simpl.
  repeat (case_bool_decide as Hk;
          [ intros [= <-]; now rewrite (getitem_missing _ _ Hk)
          | apply not_eq_None_Some in Hk as [? Hk];
            rewrite (getitem_present _ _ _ Hk); simpl; clear Hk ]).
  discriminate.
Qed.

Lemma build_mapping_present env libname prefix lwpr ccflags cpppath linkflags libs libpath :
  env !! "prefix" = Some prefix -> env !! "lwpr" = Some lwpr ->
  env !! "CCFLAGS" = Some ccflags -> env !! "CPPPATH" = Some cpppath ->
  env !! "LINKFLAGS" = Some linkflags -> env !! "LIBS" = Some libs ->
  env !! "LIBPATH" = Some libpath ->
  build_mapping env libname = ret
    (<["lib_paths" := Str (join " " (format1 "-L" <$> py_iter libpath))]>
    (<["libs" := Str (join " " ((format1 "-l" <$> py_iter libs)
                                  ++ [format1 "-l" libname])%list)]>
    (<["link_flags" := Obj linkflags]>
    (<["include_paths" := Str (join " " (format1 "-I" <$> py_iter cpppath))]>
    (<["compile_flags" := Obj ccflags]>
    (<["libname" := Obj libname]>
    (<["lwpr" := Obj lwpr]>
    (<["libdir" := Str "${libdir}"]>
    (<["includedir" := Str "${includedir}"]>
    (<["exec_prefix" := Str "${exec_prefix}"]>
    (<["prefix" := Obj prefix]> ∅))))))))))).
Proof.
  intros Hp Hw Hc Hi Hf Hl Hd. unfold build_mapping.
  rewrite (getitem_present _ _ _ Hp), (getitem_present _ _ _ Hw),
    (getitem_present _ _ _ Hc), (getitem_present _ _ _ Hi),
    (getitem_present _ _ _ Hf), (getitem_present _ _ _ Hl),
    (getitem_present _ _ _ Hd).
  reflexivity.
Qed.

Lemma render_present env libname prefix lwpr ccflags cpppath linkflags libs libpath :
  env !! "prefix" = Some prefix -> env !! "lwpr" = Some lwpr ->
  env !! "CCFLAGS" = Some ccflags -> env !! "CPPPATH" = Some cpppath ->
  env !! "LINKFLAGS" = Some linkflags -> env !! "LIBS" = Some libs ->
  env !! "LIBPATH" = Some libpath ->
  render env libname = ret
    (join nl (descriptor_lines prefix lwpr ccflags cpppath linkflags libs libpath libname)).
Proof.
  intros Hp Hw Hc Hi Hf Hl Hd. unfold render.
  rewrite (build_mapping_present _ _ _ _ _ _ _ _ _ Hp Hw Hc Hi Hf Hl Hd).
  unfold ret at 1, bind at 1, Template.substitute.
  rewrite tokenize_pc_template.
  unfold Template.convert_all, getitem.
  repeat (rewrite lookup_insert_ne by discriminate).
  simplify_map_eq.
  unfold bind, ret, descriptor_lines, join, String.concat. simpl py_str.
  rewrite !append_assoc. reflexivity.
Qed.

Lemma descriptor_lines_single env libname prefix lwpr ccflags cpppath linkflags libs libpath :
  env !! "prefix" = Some prefix -> env !! "lwpr" = Some lwpr ->
  env !! "CCFLAGS" = Some ccflags -> env !! "CPPPATH" = Some cpppath ->
  env !! "LINKFLAGS" = Some linkflags -> env !! "LIBS" = Some libs ->
  env !! "LIBPATH" = Some libpath ->
  single_line_values env libname = true ->
  forallb single_line
    (descriptor_lines prefix lwpr ccflags cpppath linkflags libs libpath libname) = true.
Proof.
  intros Hp Hw Hc Hi Hf Hl Hd. unfold single_line_values, required_keys.
  simpl forallb. rewrite Hp, Hw, Hc, Hi, Hf, Hl, Hd. unfold flat_value.
  intros Hall. repeat (apply andb_prop in Hall as [? Hall]).
  repeat match goal with
         | Hx : _ && _ = true |- _ => apply andb_prop in Hx as [? ?]
         end.
  assert (Hname : single_line (format1 "-l" libname) = true).
  { unfold format1. rewrite single_line_app. now apply andb_true_intro. }
  assert (HI : single_line (join " " (format1 "-I" <$> py_iter cpppath)) = true)
    by (apply single_line_join; [reflexivity | now apply single_line_format]).
  assert (HL : single_line (join " " (format1 "-L" <$> py_iter libpath)) = true)
    by (apply single_line_join; [reflexivity | now apply single_line_format]).
  assert (Hls : single_line (join " " ((format1 "-l" <$> py_iter libs)
                                         ++ [format1 "-l" libname])%list) = true).
  { apply single_line_join; [reflexivity |].
    rewrite forallb_app. apply andb_true_intro. split.
    - now apply single_line_format.
    - cbn [forallb]. now rewrite Hname. }
  unfold descriptor_lines. cbn [forallb]. rewrite !single_line_app.
  repeat match goal with
         | Hx : single_line _ = true |- _ => rewrite Hx; clear Hx
         end.
  reflexivity.
Qed.

Lemma render_lines env libname prefix lwpr ccflags cpppath linkflags libs libpath text :
  env !! "prefix" = Some prefix -> env !! "lwpr" = Some lwpr ->
  env !! "CCFLAGS" = Some ccflags -> env !! "CPPPATH" = Some cpppath ->
  env !! "LINKFLAGS" = Some linkflags -> env !! "LIBS" = Some libs ->
  env !! "LIBPATH" = Some libpath ->
  single_line_values env libname = true ->
  render env libname = ret text ->
  lines text = descriptor_lines prefix lwpr ccflags cpppath linkflags libs libpath libname.
Proof.
  intros Hp Hw Hc Hi Hf Hl Hd Hflat.
  rewrite (render_present _ _ _ _ _ _ _ _ _ Hp Hw Hc Hi Hf Hl Hd).
  intros [= <-].
  apply (lines_join
           (descriptor_lines prefix lwpr ccflags cpppath linkflags libs libpath libname));
    [discriminate |].
  now apply (descriptor_lines_single env).
Qed.

Lemma render_raises_only_missing env libname e :
  render env libname = raise e -> exists k, first_missing env = Some k /\ e = KeyError k.
Proof.
  destruct (first_missing env) as [k|] eqn:Hm.
  - unfold render. rewrite (build_mapping_missing _ _ _ Hm).
    intros [= <-]. now exists k.
  - destruct (first_missing_None _ Hm)
      as (p & w & c & i & f & l & d & Hp & Hw & Hc & Hi & Hf & Hl & Hd).
    rewrite (render_present _ libname _ _ _ _ _ _ _ Hp Hw Hc Hi Hf Hl Hd).
    discriminate.
Qed.
End Descriptor.

(** ** The file system *)

Lemma open_w_writable (filename : string) (fs : filesystem) :
  filename ∉ unwritable fs ->
  open_w filename fs = ret {| files := <[filename := ""]> (files fs);
                              unwritable := unwritable fs |}.
Proof. intros Hw. unfold open_w. now rewrite decide_False. Qed.

Lemma open_w_unwritable (filename : string) (fs : filesystem) :
  filename ∈ unwritable fs -> open_w filename fs = raise (IOError filename).
Proof. intros Hu. unfold open_w. now rewrite decide_True. Qed.

Lemma write_after_open (filename text : string) (fs : filesystem) :
  write filename text {| files := <[filename := ""]> (files fs);
                         unwritable := unwritable fs |}
  = {| files := <[filename := text]> (files fs); unwritable := unwritable fs |}.
Proof.
  unfold write. simpl. f_equal.
  rewrite alter_insert_eq. reflexivity.
Qed.

(** * The claims *)

Section Claims.
Context {V : Type} `{PyObject V}.
Implicit Types (env : gmap string V) (libname : V) (text : string).

Lemma render_ret_present env libname text :
  render env libname = ret text -> first_missing env = None.
Proof.
  destruct (first_missing env) as [k|] eqn:Hm; [| reflexivity].
  unfold render. rewrite (build_mapping_missing _ _ _ Hm). discriminate.
Qed.

(** A rendered text is the twelve pieces of [descriptor_lines] joined by
    line breaks; they are its lines when no value brings a line break. *)
Lemma render_ret_layout env libname text :
  render env libname = ret text ->
  exists prefix lwpr ccflags cpppath linkflags libs libpath,
    (env !! "prefix" = Some prefix /\ env !! "lwpr" = Some lwpr /\
     env !! "CCFLAGS" = Some ccflags /\ env !! "CPPPATH" = Some cpppath /\
     env !! "LINKFLAGS" = Some linkflags /\ env !! "LIBS" = Some libs /\
     env !! "LIBPATH" = Some libpath) /\
    text = join nl
             (descriptor_lines prefix lwpr ccflags cpppath linkflags libs libpath libname) /\
    (single_line_values env libname = true ->
     lines text
     = descriptor_lines prefix lwpr ccflags cpppath linkflags libs libpath libname).
Proof.
  intros Hr.
  destruct (first_missing_None _ (render_ret_present _ _ _ Hr))
    as (p & w & c & i & f & l & d & Hp & Hw & Hc & Hi & Hf & Hl & Hd).
  exists p, w, c, i, f, l, d. split; [tauto |]. split.
  - rewrite (render_present _ libname _ _ _ _ _ _ _ Hp Hw Hc Hi Hf Hl Hd) in Hr.
    now injection Hr as <-.
  - intros Hflat. now apply (render_lines env).
Qed.

Lemma save_unwritable env libname (filename : string) (fs : filesystem) :
  filename ∈ unwritable fs ->
  save_pkg_config_descriptor env libname filename fs = (raise (IOError filename), fs).
Proof.
  intros Hu. unfold save_pkg_config_descriptor.
  now rewrite (open_w_unwritable _ _ Hu).
Qed.

Lemma save_writable env libname (filename : string) (fs : filesystem) :
  filename ∉ unwritable fs ->
  save_pkg_config_descriptor env libname filename fs
  = match render env libname with
    | inl e =>
        (inl e, {| files := <[filename := ""]> (files fs);
                   unwritable := unwritable fs |})
    | inr text =>
        (ret tt, {| files := <[filename := text]> (files fs);
                    unwritable := unwritable fs |})
    end.
Proof.
  intros Hw. unfold save_pkg_config_descriptor.
  rewrite (open_w_writable _ _ Hw). unfold ret at 1.
  destruct (render env libname); [reflexivity |].
  now rewrite write_after_open.
Qed.

(** C1 (amended): the substitution mapping binds exec_prefix, includedir and
    libdir to the literal tokens ${exec_prefix}, ${includedir}, ${libdir}, and
    these reach the descriptor unresolved where the skeleton refers to them:
    the libdir assignment is [libdir=${exec_prefix}/lib], the Cflags line ends
    in [-I${includedir}] and the Libs line contains [-L${libdir}].  The
    exec_prefix and includedir assignments themselves are resolved at
    generation time: [exec_prefix=<prefix>] and [includedir=<prefix>/include].
    The text is twelve pieces joined by line breaks, which are its lines
    when no value holds a line break. *)
Theorem deferred_tokens_in_descriptor env libname (prefix : V)
    (mapping : gmap string (bound V)) text :
  env !! "prefix" = Some prefix ->
  build_mapping env libname = ret mapping ->
  render env libname = ret text ->
  mapping !! "exec_prefix" = Some (Str "${exec_prefix}") /\
  mapping !! "includedir" = Some (Str "${includedir}") /\
  mapping !! "libdir" = Some (Str "${libdir}") /\
  exists ls,
    text = join nl ls /\ length ls = 12%nat /\
    (single_line_values env libname = true -> lines text = ls) /\
    ls !! 2%nat = Some ("exec_prefix=" +:+ py_str prefix) /\
    ls !! 3%nat = Some ("includedir=" +:+ py_str prefix +:+ "/include") /\
    ls !! 4%nat = Some "libdir=${exec_prefix}/lib" /\
    (exists flags, ls !! 9%nat = Some ("Cflags: " +:+ flags +:+ " -I${includedir}")) /\
    (exists front back,
       ls !! 10%nat = Some ("Libs: " +:+ front +:+ " -L${libdir} " +:+ back)).
Proof.
  intros Hprefix Hm Hr.
  destruct (render_ret_layout _ _ _ Hr)
    as (p & w & c & i & f & l & d & (Hp & Hw & Hc & Hi & Hf & Hl & Hd) & Htext & Hlines).
  rewrite (build_mapping_present _ _ _ _ _ _ _ _ _ Hp Hw Hc Hi Hf Hl Hd) in Hm.
  injection Hm as <-. rewrite Hprefix in Hp. injection Hp as <-.
  do 3 (split; [reflexivity |]).
  exists (descriptor_lines prefix w c i f l d libname).
  do 2 (split; [assumption || reflexivity |]). split; [exact Hlines |].
  do 3 (split; [reflexivity |]). split.
  - exists (py_str c +:+ " " +:+ join " " (format1 "-I" <$> py_iter i)).
    cbn [descriptor_lines lookup list_lookup]. f_equal.
    now rewrite !append_assoc.
  - exists (py_str f +:+ " " +:+ join " " (format1 "-L" <$> py_iter d)),
      (join " " ((format1 "-l" <$> py_iter l) ++ [format1 "-l" libname])%list).
    cbn [descriptor_lines lookup list_lookup]. f_equal.
    now rewrite !append_assoc.
Qed.

(** C2 (amended): when a required key is absent and the output path can be
    opened, the call raises KeyError naming the first absent key (in the order
    the generator reads the keys) before any text is written; the file has
    been opened for writing by then, so it exists afterwards and is empty,
    with every other file as it was. *)
Theorem missing_key_leaves_empty_file env libname (filename : string)
    (fs : filesystem) (k : string) :
  In k required_keys ->
  env !! k = None ->
  filename ∉ unwritable fs ->
  exists k',
    first_missing env = Some k' /\ env !! k' = None /\
    save_pkg_config_descriptor env libname filename fs
    = (raise (KeyError k'),
       {| files := <[filename := ""]> (files fs); unwritable := unwritable fs |}).
Proof.
  intros Hin Hk Hw.
  destruct (first_missing env) as [k'|] eqn:Hm.
  - exists k'. split; [reflexivity |]. split.
    + unfold first_missing in Hm. apply find_some in Hm as [_ Hk'].
      now apply bool_decide_eq_true in Hk'.
    + rewrite (save_writable _ _ _ _ Hw). unfold render.
      now rewrite (build_mapping_missing _ _ _ Hm).
  - unfold first_missing in Hm.
    apply (find_none _ _ Hm) in Hin.
    apply bool_decide_eq_false in Hin. contradiction.
Qed.

(** C3 (amended): the descriptor's [prefix=] assignment holds the package
    root (key lwpr), rendered as it is; the supplied install prefix (key
    prefix) is the value of the [exec_prefix=] assignment, again with no
    character added or removed, and the stem of the [includedir=]
    assignment, which is [includedir=<prefix>/include]. *)
Theorem prefix_assignment env libname (prefix lwpr : V) text :
  env !! "prefix" = Some prefix ->
  env !! "lwpr" = Some lwpr ->
  render env libname = ret text ->
  exists ls,
    text = join nl ls /\ length ls = 12%nat /\
    (single_line_values env libname = true -> lines text = ls) /\
    ls !! 1%nat = Some ("prefix=" +:+ py_str lwpr) /\
    ls !! 2%nat = Some ("exec_prefix=" +:+ py_str prefix) /\
    ls !! 3%nat = Some ("includedir=" +:+ py_str prefix +:+ "/include").
Proof.
  intros Hprefix Hlwpr Hr.
  destruct (render_ret_layout _ _ _ Hr)
    as (p & w & c & i & f & l & d & (Hp & Hw & _) & Htext & Hlines).
  rewrite Hprefix in Hp. rewrite Hlwpr in Hw.
  injection Hp as <-. injection Hw as <-.
  exists (descriptor_lines prefix lwpr c i f l d libname).
  repeat split; assumption || reflexivity.
Qed.

(** C4: the Libs line is, in this order, the raw link flags, every library
    search path behind [-L] in input order, [-L${libdir}], every linked
    library name behind [-l] in input order, and [-l<libname>], which closes
    the line.  (The text is twelve pieces joined by line breaks, the Libs
    line being the eleventh; they are the lines of the text when no value
    holds a line break.) *)
Theorem libs_line env libname (linkflags libpath libs : V) text :
  env !! "LINKFLAGS" = Some linkflags ->
  env !! "LIBPATH" = Some libpath ->
  env !! "LIBS" = Some libs ->
  render env libname = ret text ->
  exists ls,
    text = join nl ls /\ length ls = 12%nat /\
    (single_line_values env libname = true -> lines text = ls) /\
    ls !! 10%nat
    = Some ("Libs: " +:+ py_str linkflags +:+ " "
            +:+ join " " (format1 "-L" <$> py_iter libpath) +:+ " -L${libdir} "
            +:+ join " " ((format1 "-l" <$> py_iter libs)
                          ++ [format1 "-l" libname])%list) /\
    exists front, ls !! 10%nat = Some (front +:+ "-l" +:+ py_str libname).
Proof.
  intros Hlf Hlp Hls Hr.
  destruct (render_ret_layout _ _ _ Hr)
    as (p & w & c & i & f & l & d & (_ & _ & _ & _ & Hf & Hl & Hd) & Htext & Hlines).
  rewrite Hlf in Hf. rewrite Hlp in Hd. rewrite Hls in Hl.
  injection Hf as <-. injection Hd as <-. injection Hl as <-.
  exists (descriptor_lines p w c i linkflags libs libpath libname).
  do 4 (split; [assumption || reflexivity |]).
  destruct (join_snoc " " (format1 "-l" libname) (format1 "-l" <$> py_iter libs))
    as [front Hfront].
  exists ("Libs: " +:+ py_str linkflags +:+ " "
          +:+ join " " (format1 "-L" <$> py_iter libpath) +:+ " -L${libdir} " +:+ front).
  cbn [descriptor_lines lookup list_lookup]. rewrite Hfront. f_equal.
  unfold format1. now rewrite !append_assoc.
Qed.

Lemma cflags_line_of env libname (ccflags cpppath : V) text :
  env !! "CCFLAGS" = Some ccflags ->
  env !! "CPPPATH" = Some cpppath ->
  render env libname = ret text ->
  exists ls,
    text = join nl ls /\ length ls = 12%nat /\
    (single_line_values env libname = true -> lines text = ls) /\
    ls !! 9%nat
    = Some ("Cflags: " +:+ py_str ccflags +:+ " "
            +:+ join " " (format1 "-I" <$> py_iter cpppath) +:+ " -I${includedir}").
Proof.
  intros Hcc Hcp Hr.
  destruct (render_ret_layout _ _ _ Hr)
    as (p & w & c & i & f & l & d & (_ & _ & Hc & Hi & _) & Htext & Hlines).
  rewrite Hcc in Hc. rewrite Hcp in Hi.
  injection Hc as <-. injection Hi as <-.
  exists (descriptor_lines p w ccflags cpppath f l d libname).
  repeat split; assumption || reflexivity.
Qed.


(** C7: a second call with the same environment, library name and output
    path, made on the file system the first call left, has the same outcome
    and leaves the same file system: the file holds the same bytes after
    both calls. *)
Theorem save_twice_same_output env libname (filename : string) (fs : filesystem) :
  save_pkg_config_descriptor env libname filename
    (snd (save_pkg_config_descriptor env libname filename fs))
  = save_pkg_config_descriptor env libname filename fs.
Proof.
  destruct (decide (filename ∈ unwritable fs)) as [Hu|Hw].
  - rewrite (save_unwritable env libname filename fs Hu). cbn [snd].
    apply save_unwritable, Hu.
  - rewrite (save_writable env libname filename fs Hw).
    destruct (render env libname) as [e|text] eqn:Hr; cbn [snd];
      rewrite save_writable by exact Hw; rewrite Hr; cbn [files unwritable];
      now rewrite insert_insert_eq.
Qed.

(** C8: with all seven required keys in the environment, the mapping is
    built, the skeleton's placeholders are the eleven names lwpr, prefix,
    exec_prefix, libname, compile_flags, include_paths, includedir,
    link_flags, lib_paths, libdir and libs, each of them is bound in the
    mapping, the skeleton holds no stray delimiter, and the substitution
    returns a text. *)
Theorem placeholders_all_bound env libname :
  (forall k, k ∈ ["prefix"; "lwpr"; "CCFLAGS"; "CPPPATH"; "LINKFLAGS"; "LIBS"; "LIBPATH"] ->
             is_Some (env !! k)) ->
  exists (mapping : gmap string (bound V)) ts text,
    build_mapping env libname = ret mapping /\
    Template.tokenize pc_template = Some ts /\
    (Template.Invalid ∉ ts) /\
    (forall i, i ∈ Template.placeholders ts <->
               i ∈ ["lwpr"; "prefix"; "exec_prefix"; "libname"; "compile_flags";
                    "include_paths"; "includedir"; "link_flags"; "lib_paths";
                    "libdir"; "libs"]) /\
    (forall i, i ∈ Template.placeholders ts -> is_Some (mapping !! i)) /\
    Template.substitute pc_template mapping = ret text /\
    render env libname = ret text.
Proof.
  intros Hkeys.
  assert (Hm : first_missing env = None).
  { destruct (first_missing env) as [k|] eqn:Hk; [| reflexivity].
    unfold first_missing in Hk. apply find_some in Hk as [Hin Hnone].
    apply bool_decide_eq_true in Hnone.
    destruct (Hkeys k) as [v Hv]; [now apply list_elem_of_In | congruence]. }
  destruct (first_missing_None _ Hm)
    as (p & w & c & i & f & l & d & Hp & Hw & Hc & Hi & Hf & Hl & Hd).
  pose proof (render_present _ libname _ _ _ _ _ _ _ Hp Hw Hc Hi Hf Hl Hd) as Hr.
  pose proof (build_mapping_present _ libname _ _ _ _ _ _ _ Hp Hw Hc Hi Hf Hl Hd) as Hb.
  eexists _, _, _. split; [exact Hb |]. split; [exact tokenize_pc_template |].
  split; [| split; [| split; [| split; [| exact Hr]]]].
  - rewrite !elem_of_cons, elem_of_nil. intuition discriminate.
  - intros k. cbn [Template.placeholders].
    rewrite !elem_of_cons, !elem_of_nil. tauto.
  - intros k. cbn [Template.placeholders].
    rewrite !elem_of_cons, elem_of_nil.
    intros Hk.
    repeat (destruct Hk as [-> | Hk]; [simplify_map_eq; eauto |]).
    contradiction.
  - unfold render in Hr. rewrite Hb in Hr. exact Hr.
Qed.

(** C10: the text starts with a line break, directly followed by the
    [prefix=] assignment, and ends with the Libs line and one line break:
    its first line is empty, and nothing follows the line break that closes
    the Libs line. *)
Theorem descriptor_framing env libname (linkflags libpath libs : V) text :
  env !! "LINKFLAGS" = Some linkflags ->
  env !! "LIBPATH" = Some libpath ->
  env !! "LIBS" = Some libs ->
  render env libname = ret text ->
  (exists body,
     text = nl +:+ "prefix=" +:+ body +:+ nl
            +:+ "Libs: " +:+ py_str linkflags +:+ " "
            +:+ join " " (format1 "-L" <$> py_iter libpath) +:+ " -L${libdir} "
            +:+ join " " ((format1 "-l" <$> py_iter libs)
                          ++ [format1 "-l" libname])%list
            +:+ nl) /\
  (single_line_values env libname = true ->
   length (lines text) = 12%nat /\
   lines text !! 0%nat = Some "" /\ lines text !! 11%nat = Some "").
Proof.
  intros Hlf Hlp Hls Hr.
  destruct (render_ret_layout _ _ _ Hr)
    as (p & w & c & i & f & l & d & (_ & _ & _ & _ & Hf & Hl & Hd) & Htext & Hlines).
  rewrite Hlf in Hf. rewrite Hlp in Hd. rewrite Hls in Hl.
  injection Hf as <-. injection Hd as <-. injection Hl as <-.
  split.
  - exists (py_str w +:+ nl +:+ "exec_prefix=" +:+ py_str p +:+ nl
            +:+ "includedir=" +:+ py_str p +:+ "/include" +:+ nl
            +:+ "libdir=${exec_prefix}/lib" +:+ nl +:+ nl
            +:+ "Name: " +:+ py_str libname +:+ nl
            +:+ "Description: The Dilithium Dynamic Programming library" +:+ nl
            +:+ "Version: 0.0.1" +:+ nl
            +:+ "Cflags: " +:+ py_str c +:+ " "
            +:+ join " " (format1 "-I" <$> py_iter i) +:+ " -I${includedir}").
    rewrite Htext. unfold descriptor_lines, join at 1, String.concat.
    rewrite !append_assoc. reflexivity.
  - intros Hflat. rewrite (Hlines Hflat). repeat split.
Qed.
End Claims.

(** C5 (amended): the Cflags line is the raw compile flags, every include
    search path behind [-I] in input order, and [-I${includedir}], separated
    by the skeleton's single spaces.  For the scenario, completed with a
    package root and holding its flag sequences as SCons does, the Cflags line
    is [Cflags: -O2 -I/usr/local/include -I${includedir}] and the Libs line is
    [Libs:  -L/usr/local/lib -L${libdir} -lm -lfoo]: the empty link flags
    leave the skeleton's separating space in front of the first [-L]. *)
Theorem cflags_line_and_scenario :
  (forall (V : Type) (O : PyObject V) (env : gmap string V)
          (libname ccflags cpppath : V) (text : string),
      env !! "CCFLAGS" = Some ccflags ->
      env !! "CPPPATH" = Some cpppath ->
      render env libname = ret text ->
      exists ls,
        text = join nl ls /\ length ls = 12%nat /\
        (single_line_values env libname = true -> lines text = ls) /\
        ls !! 9%nat
        = Some ("Cflags: " +:+ py_str ccflags +:+ " "
                +:+ join " " (format1 "-I" <$> py_iter cpppath)
                +:+ " -I${includedir}")) /\
  render scenario_env_rooted (SStr "foo") = ret scenario_text /\
  lines scenario_text !! 9%nat
  = Some "Cflags: -O2 -I/usr/local/include -I${includedir}" /\
  lines scenario_text !! 10%nat
  = Some "Libs:  -L/usr/local/lib -L${libdir} -lm -lfoo".
Proof.
  split.
  - intros V O env libname ccflags cpppath text. apply cflags_line_of.
  - repeat split; vm_compute; reflexivity.
Qed.

(** C9: the debug flag selects the name [lwpr-debug], but the name selected
    is never handed on: the extension is named [lwpr] and links [lwpr] with
    or without the flag, and the whole [setup] call is the same. *)
Theorem debug_flag_has_no_effect (src_dir builddir : string) (pkgs : list string) :
  Setup.libname_for (bool_decide ("--debug" ∈ ["setup.py"; "build_ext"; "--debug"]))
  = "lwpr-debug" /\
  Setup.ext_name <$> Setup.ext_modules
    (Setup.main src_dir builddir pkgs ["setup.py"; "build_ext"; "--debug"]) = ["lwpr"] /\
  Setup.libraries <$> Setup.ext_modules
    (Setup.main src_dir builddir pkgs ["setup.py"; "build_ext"; "--debug"]) = [["lwpr"]] /\
  forall argv,
    Setup.main src_dir builddir pkgs argv
    = Setup.main src_dir builddir pkgs ["setup.py"; "build_ext"; "--debug"].
Proof. repeat split. Qed.

(** ** Concrete runs *)

(** C1, as stated, fails on the scenario: the exec_prefix and includedir
    assignments carry the install prefix, the libdir assignment refers to
    [${exec_prefix}], and none of the three self-referring lines occurs. *)
Lemma deferred_assignments_counterexample :
  render scenario_env_rooted (SStr "foo") = ret scenario_text /\
  lines scenario_text !! 2%nat = Some "exec_prefix=/usr/local" /\
  lines scenario_text !! 3%nat = Some "includedir=/usr/local/include" /\
  lines scenario_text !! 4%nat = Some "libdir=${exec_prefix}/lib" /\
  ~ In "exec_prefix=${exec_prefix}" (lines scenario_text) /\
  ~ In "includedir=${includedir}" (lines scenario_text) /\
  ~ In "libdir=${libdir}" (lines scenario_text).
Proof.
  repeat split; try (vm_compute; reflexivity);
    vm_compute; intuition discriminate.
Qed.

(** C2, as stated, fails when the link flags are left out: the call raises
    the key error, yet a file that did not exist has been created, and a file
    that existed has lost its content. *)
Lemma missing_key_truncates_output :
  first_missing scenario_env_unlinked = Some "LINKFLAGS" /\
  fst (save_pkg_config_descriptor scenario_env_unlinked (SStr "foo") "lwpr.pc" empty_tree)
  = raise (KeyError "LINKFLAGS") /\
  files empty_tree !! "lwpr.pc" = None /\
  files (snd (save_pkg_config_descriptor scenario_env_unlinked (SStr "foo")
                "lwpr.pc" empty_tree)) !! "lwpr.pc" = Some "" /\
  fst (save_pkg_config_descriptor scenario_env_unlinked (SStr "foo") "lwpr.pc"
         installed_tree)
  = raise (KeyError "LINKFLAGS") /\
  files installed_tree !! "lwpr.pc" = Some "prefix=/old" /\
  files (snd (save_pkg_config_descriptor scenario_env_unlinked (SStr "foo")
                "lwpr.pc" installed_tree)) !! "lwpr.pc" = Some "".
Proof. repeat split; vm_compute; reflexivity. Qed.

(** C3, as stated, fails on the scenario: the install prefix is /usr/local,
    the [prefix=] assignment carries the package root /opt/lwpr. *)
Lemma prefix_line_counterexample :
  scenario_env_rooted !! "prefix" = Some (SStr "/usr/local") /\
  render scenario_env_rooted (SStr "foo") = ret scenario_text /\
  lines scenario_text !! 1%nat = Some "prefix=/opt/lwpr" /\
  ~ In "prefix=/usr/local" (lines scenario_text).
Proof.
  repeat split; try (vm_compute; reflexivity);
    vm_compute; intuition discriminate.
Qed.

(** C5, as stated, fails on the scenario: as written it names no package
    root and the call raises; with a package root supplied the Libs line
    carries two spaces after the colon, so the line of the claim is not in
    the descriptor. *)
Lemma scenario_libs_line_counterexample :
  render scenario_env (SStr "foo") = raise (KeyError "lwpr") /\
  render scenario_env_rooted (SStr "foo") = ret scenario_text /\
  lines scenario_text !! 10%nat = Some "Libs:  -L/usr/local/lib -L${libdir} -lm -lfoo" /\
  ~ In "Libs: -L/usr/local/lib -L${libdir} -lm -lfoo" (lines scenario_text).
Proof.
  repeat split; try (vm_compute; reflexivity);
    vm_compute; intuition discriminate.
Qed.


(** ** The theorems at the scenario *)

Lemma deferred_tokens_in_descriptor_witness :
  single_line_values scenario_env_rooted (SStr "foo") = true /\
  (scenario_mapping !! "exec_prefix" = Some (Str "${exec_prefix}") /\
    scenario_mapping !! "includedir" = Some (Str "${includedir}") /\
    scenario_mapping !! "libdir" = Some (Str "${libdir}") /\
    exists ls,
      scenario_text = join nl ls /\ length ls = 12%nat /\
      (single_line_values scenario_env_rooted (SStr "foo") = true ->
       lines scenario_text = ls) /\
      ls !! 2%nat = Some ("exec_prefix=" +:+ py_str (SStr "/usr/local")) /\
      ls !! 3%nat = Some ("includedir=" +:+ py_str (SStr "/usr/local") +:+ "/include") /\
      ls !! 4%nat = Some "libdir=${exec_prefix}/lib" /\
      (exists flags, ls !! 9%nat = Some ("Cflags: " +:+ flags +:+ " -I${includedir}")) /\
      (exists front back,
         ls !! 10%nat = Some ("Libs: " +:+ front +:+ " -L${libdir} " +:+ back))).
Proof.
  split; [vm_compute; reflexivity |].
  apply (deferred_tokens_in_descriptor scenario_env_rooted (SStr "foo"));
    vm_compute; reflexivity.
Defined.

Lemma missing_key_leaves_empty_file_witness :
  exists k',
    first_missing scenario_env_unlinked = Some k' /\
    scenario_env_unlinked !! k' = None /\
    save_pkg_config_descriptor scenario_env_unlinked (SStr "foo") "lwpr.pc" installed_tree
    = (raise (KeyError k'),
       {| files := <["lwpr.pc" := ""]> (files installed_tree);
          unwritable := unwritable installed_tree |}).
Proof.
  apply (missing_key_leaves_empty_file scenario_env_unlinked (SStr "foo") "lwpr.pc"
           installed_tree "LINKFLAGS");
    [ vm_compute; tauto
    | vm_compute; reflexivity
    | refine (bool_decide_unpack _ _); vm_compute; exact I ].
Defined.

Lemma prefix_assignment_witness :
  single_line_values scenario_env_rooted (SStr "foo") = true /\
  (exists ls,
      scenario_text = join nl ls /\ length ls = 12%nat /\
      (single_line_values scenario_env_rooted (SStr "foo") = true ->
       lines scenario_text = ls) /\
      ls !! 1%nat = Some ("prefix=" +:+ py_str (SStr "/opt/lwpr")) /\
      ls !! 2%nat = Some ("exec_prefix=" +:+ py_str (SStr "/usr/local")) /\
      ls !! 3%nat = Some ("includedir=" +:+ py_str (SStr "/usr/local") +:+ "/include")).
Proof.
  split; [vm_compute; reflexivity |].
  apply (prefix_assignment scenario_env_rooted (SStr "foo"));
    vm_compute; reflexivity.
Defined.

Lemma libs_line_witness :
  single_line_values scenario_env_rooted (SStr "foo") = true /\
  (exists ls,
      scenario_text = join nl ls /\ length ls = 12%nat /\
      (single_line_values scenario_env_rooted (SStr "foo") = true ->
       lines scenario_text = ls) /\
      ls !! 10%nat
      = Some ("Libs: " +:+ py_str (CLVar []) +:+ " "
              +:+ join " " (format1 "-L" <$> py_iter (CLVar ["/usr/local/lib"]))
              +:+ " -L${libdir} "
              +:+ join " " ((format1 "-l" <$> py_iter (CLVar ["m"]))
                            ++ [format1 "-l" (SStr "foo")])%list) /\
      exists front, ls !! 10%nat = Some (front +:+ "-l" +:+ py_str (SStr "foo"))).
Proof.
  split; [vm_compute; reflexivity |].
  apply (libs_line scenario_env_rooted (SStr "foo")); vm_compute; reflexivity.
Defined.

Lemma cflags_line_and_scenario_witness :
  single_line_values scenario_env_rooted (SStr "foo") = true /\
  (exists ls,
      scenario_text = join nl ls /\ length ls = 12%nat /\
      (single_line_values scenario_env_rooted (SStr "foo") = true ->
       lines scenario_text = ls) /\
      ls !! 9%nat
      = Some ("Cflags: " +:+ py_str (CLVar ["-O2"]) +:+ " "
              +:+ join " " (format1 "-I" <$> py_iter (CLVar ["/usr/local/include"]))
              +:+ " -I${includedir}")).
Proof.
  split; [vm_compute; reflexivity |].
  apply (proj1 cflags_line_and_scenario scons_value scons_object
           scenario_env_rooted (SStr "foo"));
    vm_compute; reflexivity.
Defined.


Lemma placeholders_all_bound_witness :
  exists (mapping : gmap string (bound scons_value)) ts text,
    build_mapping scenario_env_rooted (SStr "foo") = ret mapping /\
    Template.tokenize pc_template = Some ts /\
    (Template.Invalid ∉ ts) /\
    (forall i, i ∈ Template.placeholders ts <->
               i ∈ ["lwpr"; "prefix"; "exec_prefix"; "libname"; "compile_flags";
                    "include_paths"; "includedir"; "link_flags"; "lib_paths";
                    "libdir"; "libs"]) /\
    (forall i, i ∈ Template.placeholders ts -> is_Some (mapping !! i)) /\
    Template.substitute pc_template mapping = ret text /\
    render scenario_env_rooted (SStr "foo") = ret text.
Proof.
  apply (placeholders_all_bound scenario_env_rooted (SStr "foo")).
  intros k Hk. rewrite !elem_of_cons, elem_of_nil in Hk.
  repeat (destruct Hk as [-> | Hk]; [eexists; vm_compute; reflexivity |]).
  contradiction.
Defined.

Lemma descriptor_framing_witness :
  single_line_values scenario_env_rooted (SStr "foo") = true /\
  ((exists body,
       scenario_text
       = nl +:+ "prefix=" +:+ body +:+ nl
         +:+ "Libs: " +:+ py_str (CLVar []) +:+ " "
         +:+ join " " (format1 "-L" <$> py_iter (CLVar ["/usr/local/lib"]))
         +:+ " -L${libdir} "
         +:+ join " " ((format1 "-l" <$> py_iter (CLVar ["m"]))
                       ++ [format1 "-l" (SStr "foo")])%list
         +:+ nl) /\
    (single_line_values scenario_env_rooted (SStr "foo") = true ->
     length (lines scenario_text) = 12%nat /\
     lines scenario_text !! 0%nat = Some "" /\ lines scenario_text !! 11%nat = Some "")).
Proof.
  split; [vm_compute; reflexivity |].
  apply (descriptor_framing scenario_env_rooted (SStr "foo")); vm_compute; reflexivity.
Defined.

(** * Further properties of the generator *)

Section GeneratorExtras.
Context {V : Type} `{PyObject V}.
Implicit Types (env : gmap string V) (libname : V) (text : string).

Lemma required_present_first_missing env :
  (forall k, In k required_keys -> is_Some (env !! k)) -> first_missing env = None.
Proof.
  intros Hkeys. destruct (first_missing env) as [k|] eqn:Hk; [| reflexivity].
  unfold first_missing in Hk. apply find_some in Hk as [Hin Hnone].
  apply bool_decide_eq_true in Hnone.
  destruct (Hkeys k Hin) as [v Hv]. congruence.
Qed.

Lemma first_missing_required env k :
  first_missing env = Some k -> In k required_keys /\ env !! k = None.
Proof.
  unfold first_missing. intros Hk. apply find_some in Hk as [Hin Hnone].
  now apply bool_decide_eq_true in Hnone.
Qed.

Lemma first_missing_None_present env :
  first_missing env = None -> forall k, In k required_keys -> is_Some (env !! k).
Proof.
  unfold first_missing. intros Hm k Hin.
  apply (find_none _ _ Hm) in Hin. apply bool_decide_eq_false in Hin.
  destruct (env !! k); [eauto | congruence].
Qed.

(** X1: a call changes no file but the one at [filename], whatever its
    outcome, and never the set of paths that refuse to be opened. *)
Theorem save_touches_only_output env libname (filename p : string) (fs : filesystem) :
  p <> filename ->
  files (snd (save_pkg_config_descriptor env libname filename fs)) !! p = files fs !! p /\
  unwritable (snd (save_pkg_config_descriptor env libname filename fs)) = unwritable fs.
Proof.
  intros Hp. destruct (decide (filename ∈ unwritable fs)) as [Hu|Hw].
  - rewrite (save_unwritable _ _ _ _ Hu). split; reflexivity.
  - rewrite (save_writable _ _ _ _ Hw).
    destruct (render env libname); cbn [snd files unwritable];
      (split; [now apply lookup_insert_ne | reflexivity]).
Qed.

Lemma save_present env libname (filename : string) (fs : filesystem) :
  first_missing env = None ->
  filename ∉ unwritable fs ->
  exists text,
    render env libname = ret text /\
    save_pkg_config_descriptor env libname filename fs
    = (ret tt, {| files := <[filename := text]> (files fs);
                  unwritable := unwritable fs |}).
Proof.
  intros Hm Hw.
  destruct (first_missing_None _ Hm)
    as (p & w & c & i & f & l & d & Hp & Hw' & Hc & Hi & Hf & Hl & Hd).
  pose proof (render_present _ libname _ _ _ _ _ _ _ Hp Hw' Hc Hi Hf Hl Hd) as Hr.
  eexists. split; [exact Hr |].
  rewrite (save_writable _ _ _ _ Hw), Hr. reflexivity.
Qed.

(** X2: with the seven keys present and a path that can be opened, the call
    succeeds and the file holds exactly the rendered text: what the file held
    before has no influence and nothing of it remains. *)
Theorem save_writes_rendered_text env libname (filename : string) (fs : filesystem) :
  (forall k, In k required_keys -> is_Some (env !! k)) ->
  filename ∉ unwritable fs ->
  exists text,
    render env libname = ret text /\
    save_pkg_config_descriptor env libname filename fs
    = (ret tt, {| files := <[filename := text]> (files fs);
                  unwritable := unwritable fs |}) /\
    files (snd (save_pkg_config_descriptor env libname filename fs)) !! filename
    = Some text.
Proof.
  intros Hkeys Hw.
  destruct (save_present env libname filename fs
              (required_present_first_missing _ Hkeys) Hw) as (text & Hr & Hs).
  exists text. do 2 (split; [assumption |]).
  rewrite Hs. cbn [snd files]. apply lookup_insert_eq.
Qed.

(** X3: a call ends in one of three ways and no other: IOError on a path
    that cannot be opened, with the file system untouched; KeyError on the
    first absent required key, with the file left empty; or success, with
    the rendered text in the file.  It never raises ValueError. *)
Theorem save_outcomes env libname (filename : string) (fs : filesystem) :
  (filename ∈ unwritable fs /\
   save_pkg_config_descriptor env libname filename fs = (raise (IOError filename), fs)) \/
  ((filename ∉ unwritable fs) /\
   exists k, In k required_keys /\ env !! k = None /\
     save_pkg_config_descriptor env libname filename fs
     = (raise (KeyError k),
        {| files := <[filename := ""]> (files fs); unwritable := unwritable fs |})) \/
  ((filename ∉ unwritable fs) /\
   (forall k, In k required_keys -> is_Some (env !! k)) /\
   exists text, render env libname = ret text /\
     save_pkg_config_descriptor env libname filename fs
     = (ret tt, {| files := <[filename := text]> (files fs);
                   unwritable := unwritable fs |})).
Proof.
  destruct (decide (filename ∈ unwritable fs)) as [Hu|Hw].
  - left. split; [exact Hu | now apply save_unwritable].
  - right. destruct (first_missing env) as [k|] eqn:Hm.
    + left. split; [exact Hw |]. exists k.
      destruct (first_missing_required _ _ Hm) as [Hin Hk].
      do 2 (split; [assumption |]).
      rewrite (save_writable _ _ _ _ Hw). unfold render.
      now rewrite (build_mapping_missing _ _ _ Hm).
    + right. split; [exact Hw |].
      pose proof (first_missing_None_present _ Hm) as Hkeys.
      split; [exact Hkeys |]. now apply save_present.
Qed.

(** X4: rendering fails in one way only: with KeyError naming a required key
    the environment lacks, the first one in reading order.  In particular
    the substitution itself never fails. *)
Theorem render_fails_only_on_missing_key env libname (e : exn) :
  render env libname = raise e ->
  exists k,
    In k required_keys /\ env !! k = None /\ first_missing env = Some k /\
    e = KeyError k.
Proof.
  intros Hr. destruct (render_raises_only_missing _ _ _ Hr) as (k & Hm & ->).
  exists k. destruct (first_missing_required _ _ Hm) as [Hin Hk].
  repeat split; assumption.
Qed.

(** X5: only the seven required keys are read: two environments that agree
    on them give the same text or the same error, whatever else they hold. *)
Theorem render_reads_required_keys_only env1 env2 libname :
  (forall k, In k required_keys -> env1 !! k = env2 !! k) ->
  render env1 libname = render env2 libname.
Proof.
  intros Hagree. unfold render, build_mapping, getitem.
  rewrite (Hagree "prefix"), (Hagree "lwpr"), (Hagree "CCFLAGS"),
    (Hagree "CPPPATH"), (Hagree "LINKFLAGS"), (Hagree "LIBS"), (Hagree "LIBPATH")
    by (cbn; tauto).
  reflexivity.
Qed.

(** X6: the metadata block opens with an empty line and [Name: <libname>];
    the Description and Version lines are the same for every input. *)
Theorem metadata_block env libname text :
  render env libname = ret text ->
  exists ls,
    text = join nl ls /\ length ls = 12%nat /\
    (single_line_values env libname = true -> lines text = ls) /\
    ls !! 5%nat = Some "" /\
    ls !! 6%nat = Some ("Name: " +:+ py_str libname) /\
    ls !! 7%nat = Some "Description: The Dilithium Dynamic Programming library" /\
    ls !! 8%nat = Some "Version: 0.0.1".
Proof.
  intros Hr.
  destruct (render_ret_layout _ _ _ Hr)
    as (p & w & c & i & f & l & d & _ & Htext & Hlines).
  exists (descriptor_lines p w c i f l d libname).
  repeat split; assumption || reflexivity.
Qed.

(** X7: empty sequences leave the skeleton's separators behind: without
    include paths the Cflags line has two spaces before [-I${includedir}],
    without library paths the Libs line has two spaces before
    [-L${libdir}], and without linked libraries the only [-l] entry is the
    library itself. *)
Theorem empty_sequences env libname (ccflags cpppath linkflags libs libpath : V) text :
  env !! "CCFLAGS" = Some ccflags -> env !! "CPPPATH" = Some cpppath ->
  env !! "LINKFLAGS" = Some linkflags -> env !! "LIBS" = Some libs ->
  env !! "LIBPATH" = Some libpath ->
  py_iter cpppath = [] -> py_iter libs = [] -> py_iter libpath = [] ->
  render env libname = ret text ->
  exists ls,
    text = join nl ls /\ length ls = 12%nat /\
    (single_line_values env libname = true -> lines text = ls) /\
    ls !! 9%nat = Some ("Cflags: " +:+ py_str ccflags +:+ "  -I${includedir}") /\
    ls !! 10%nat
    = Some ("Libs: " +:+ py_str linkflags +:+ "  -L${libdir} -l" +:+ py_str libname).
Proof.
  intros Hcc Hcp Hlf Hls Hlp Ei El Ed Hr.
  destruct (render_ret_layout _ _ _ Hr)
    as (p & w & c & i & f & l & d & (_ & _ & Hc & Hi & Hf & Hl & Hd) & Htext & Hlines).
  rewrite Hcc in Hc. rewrite Hcp in Hi. rewrite Hlf in Hf.
  rewrite Hls in Hl. rewrite Hlp in Hd.
  injection Hc as <-. injection Hi as <-. injection Hf as <-.
  injection Hl as <-. injection Hd as <-.
  exists (descriptor_lines p w ccflags cpppath linkflags libs libpath libname).
  do 3 (split; [assumption || reflexivity |]).
  cbn [descriptor_lines lookup list_lookup]. rewrite Ei, El, Ed.
  split; reflexivity.
Qed.

(** X9: calls on different output paths do not interfere: in either order
    they leave the same file system, and each has the outcome it has alone. *)
Theorem save_distinct_paths_commute env1 env2 libname1 libname2
    (filename1 filename2 : string) (fs : filesystem) :
  filename1 <> filename2 ->
  snd (save_pkg_config_descriptor env2 libname2 filename2
         (snd (save_pkg_config_descriptor env1 libname1 filename1 fs)))
  = snd (save_pkg_config_descriptor env1 libname1 filename1
           (snd (save_pkg_config_descriptor env2 libname2 filename2 fs))) /\
  fst (save_pkg_config_descriptor env2 libname2 filename2
         (snd (save_pkg_config_descriptor env1 libname1 filename1 fs)))
  = fst (save_pkg_config_descriptor env2 libname2 filename2 fs) /\
  fst (save_pkg_config_descriptor env1 libname1 filename1
         (snd (save_pkg_config_descriptor env2 libname2 filename2 fs)))
  = fst (save_pkg_config_descriptor env1 libname1 filename1 fs).
Proof.
  intros Hne.
  destruct (decide (filename1 ∈ unwritable fs)) as [Hu1|Hw1];
    destruct (decide (filename2 ∈ unwritable fs)) as [Hu2|Hw2];
    rewrite ?(save_unwritable env1 libname1 filename1 fs) by assumption;
    rewrite ?(save_unwritable env2 libname2 filename2 fs) by assumption;
    rewrite ?(save_writable env1 libname1 filename1 fs) by assumption;
    rewrite ?(save_writable env2 libname2 filename2 fs) by assumption;
    destruct (render env1 libname1) eqn:Hr1; destruct (render env2 libname2) eqn:Hr2;
    cbn [fst snd];
    repeat first [ rewrite save_unwritable by assumption
                 | rewrite save_writable by assumption ];
    rewrite ?Hr1, ?Hr2; cbn [fst snd files unwritable];
    repeat split; f_equal; now apply insert_insert_ne.
Qed.

(** X10: on one output path the later call wins: it has the outcome, and
    leaves the file system, it would have had without the earlier call. *)
Theorem save_later_call_wins env1 env2 libname1 libname2
    (filename : string) (fs : filesystem) :
  save_pkg_config_descriptor env2 libname2 filename
    (snd (save_pkg_config_descriptor env1 libname1 filename fs))
  = save_pkg_config_descriptor env2 libname2 filename fs.
Proof.
  destruct (decide (filename ∈ unwritable fs)) as [Hu|Hw].
  - rewrite (save_unwritable env1 _ _ fs Hu). reflexivity.
  - rewrite (save_writable env1 _ _ fs Hw), (save_writable env2 _ _ fs Hw).
    destruct (render env1 libname1); cbn [snd];
      rewrite save_writable by exact Hw;
      destruct (render env2 libname2); cbn [files unwritable];
      now rewrite insert_insert_eq.
Qed.
End GeneratorExtras.

(** X8: a search path handed over as one string is iterated character by
    character: the Cflags line gets one [-I] entry per character of it. *)
Theorem string_path_iterated_by_character (env : gmap string scons_value)
    (libname ccflags : scons_value) (s text : string) :
  env !! "CCFLAGS" = Some ccflags ->
  env !! "CPPPATH" = Some (SStr s) ->
  render env libname = ret text ->
  exists ls,
    text = join nl ls /\ length ls = 12%nat /\
    (single_line_values env libname = true -> lines text = ls) /\
    ls !! 9%nat
    = Some ("Cflags: " +:+ py_str ccflags +:+ " "
            +:+ join " " ((fun c => "-I" +:+ c) <$> chars s) +:+ " -I${includedir}").
Proof.
  intros Hcc Hcp Hr.
  destruct (cflags_line_of env libname ccflags (SStr s) text Hcc Hcp Hr)
    as (ls & Htext & Hlen & Hlines & H9).
  exists ls. do 3 (split; [assumption |]).
  rewrite H9. cbn [py_iter scons_object]. rewrite <- list_fmap_compose. reflexivity.
Qed.

(** X11: whatever mapping the skeleton is rendered with, the substitution
    returns a text when the eleven placeholders are bound; when one of them
    is unbound it raises KeyError naming the first unbound one in the
    skeleton's order; and it raises nothing else. *)
Theorem skeleton_substitution {M : Type} `{PyObject M} (mapping : gmap string M) :
  ((forall i, In i ["lwpr"; "prefix"; "exec_prefix"; "libname"; "compile_flags";
                    "include_paths"; "includedir"; "link_flags"; "lib_paths";
                    "libdir"; "libs"] -> is_Some (mapping !! i)) ->
   exists text, Template.substitute pc_template mapping = ret text) /\
  (forall i,
     List.find (fun k => bool_decide (mapping !! k = None))
       ["lwpr"; "prefix"; "exec_prefix"; "libname"; "compile_flags";
        "include_paths"; "includedir"; "link_flags"; "lib_paths"; "libdir"; "libs"]
     = Some i ->
     Template.substitute pc_template mapping = raise (KeyError i)) /\
  (forall i,
     In i ["lwpr"; "prefix"; "exec_prefix"; "libname"; "compile_flags";
           "include_paths"; "includedir"; "link_flags"; "lib_paths"; "libdir"; "libs"] ->
     mapping !! i = None ->
     exists j, mapping !! j = None /\
               Template.substitute pc_template mapping = raise (KeyError j)) /\
  (forall e, Template.substitute pc_template mapping = raise e ->
     exists i, In i ["lwpr"; "prefix"; "exec_prefix"; "libname"; "compile_flags";
                     "include_paths"; "includedir"; "link_flags"; "lib_paths";
                     "libdir"; "libs"] /\
               mapping !! i = None /\ e = KeyError i).
Proof.
  assert (Hfirst : forall i,
     List.find (fun k => bool_decide (mapping !! k = None))
       ["lwpr"; "prefix"; "exec_prefix"; "libname"; "compile_flags";
        "include_paths"; "includedir"; "link_flags"; "lib_paths"; "libdir"; "libs"]
     = Some i ->
     Template.substitute pc_template mapping = raise (KeyError i)).
  { intros i. unfold Template.substitute. rewrite tokenize_pc_template.
    cbn [Template.convert_all List.find]. unfold getitem, bind, ret, raise.
    repeat (case_bool_decide as Hk;
            [ intros [= <-]; now rewrite Hk
            | apply not_eq_None_Some in Hk as [? Hk]; rewrite ?Hk; clear Hk ]).
    discriminate. }
  split; [| split; [exact Hfirst | split]].
  - unfold Template.substitute. rewrite tokenize_pc_template.
    cbn [Template.convert_all]. unfold getitem, bind, ret, raise.
    intros Hkeys.
    repeat match goal with
           | |- context [mapping !! ?k] =>
               let Hk := fresh "Hk" in
               destruct (mapping !! k) eqn:Hk;
               [| destruct (Hkeys k) as [? Hv]; [cbn; tauto | congruence]]
           end.
    eexists. reflexivity.
  - intros i Hin Hnone.
    destruct (List.find (fun k => bool_decide (mapping !! k = None))
                ["lwpr"; "prefix"; "exec_prefix"; "libname"; "compile_flags";
                 "include_paths"; "includedir"; "link_flags"; "lib_paths";
                 "libdir"; "libs"]) as [j|] eqn:Hfind.
    + exists j. split; [| now apply Hfirst].
      apply find_some in Hfind as [_ Hj]. now apply bool_decide_eq_true in Hj.
    + apply (find_none _ _ Hfind) in Hin.
      apply bool_decide_eq_false in Hin. contradiction.
  - unfold Template.substitute. rewrite tokenize_pc_template.
    cbn [Template.convert_all]. unfold getitem, bind, ret, raise.
    intros e.
    repeat match goal with
           | |- context [mapping !! ?k] =>
               let Hk := fresh "Hk" in
               destruct (mapping !! k) eqn:Hk;
               [| intros [= <-]; exists k;
                  split; [cbn; tauto | split; [assumption | reflexivity]]]
           end.
    discriminate.
Qed.

(** * python/setup.py: the build command *)

Lemma filtered_cons (x : string) (l : list string) :
  BuildExt.filtered (x :: l)
  = if String.eqb x BuildExt.strict_prototypes then BuildExt.filtered l
    else x :: BuildExt.filtered l.
Proof.
  unfold BuildExt.filtered. cbn [List.filter].
  now destruct (String.eqb x BuildExt.strict_prototypes).
Qed.

(** X12: the inherited build runs with a [compiler_so] that no longer holds
    [-Wstrict-prototypes]: every occurrence is gone, every other flag is kept
    as often as it occurred, and the flags kept are in their former order. *)
Theorem strict_prototypes_removed {R : Type} (super_build_extensions : list string -> R)
    (compiler_so : list string) :
  BuildExt.build_extensions super_build_extensions compiler_so
  = super_build_extensions (BuildExt.filtered compiler_so) /\
  ~ In "-Wstrict-prototypes" (BuildExt.filtered compiler_so) /\
  (forall x, x <> "-Wstrict-prototypes" ->
     count_occ string_dec (BuildExt.filtered compiler_so) x
     = count_occ string_dec compiler_so x) /\
  sublist (BuildExt.filtered compiler_so) compiler_so.
Proof.
  split; [reflexivity |]. split; [| split].
  - induction compiler_so as [|y l IH]; [intros [] |].
    rewrite filtered_cons.
    destruct (String.eqb_spec y BuildExt.strict_prototypes) as [->|Hy]; [exact IH |].
    intros [Heq | Hin]; [now apply Hy | now apply IH].
  - intros x Hx. induction compiler_so as [|y l IH]; [reflexivity |].
    rewrite filtered_cons.
    destruct (String.eqb_spec y BuildExt.strict_prototypes) as [->|Hy].
    + rewrite IH. cbn [count_occ].
      destruct (string_dec BuildExt.strict_prototypes x) as [Heq|_]; [| reflexivity].
      now elim Hx.
    + cbn [count_occ]. now rewrite IH.
  - induction compiler_so as [|y l IH]; [constructor |].
    rewrite filtered_cons.
    destruct (String.eqb y BuildExt.strict_prototypes); now constructor.
Qed.

(** X13: the build command changes [compiler_so] exactly when it holds the
    flag, and filtering a second time changes nothing. *)
Theorem strict_prototypes_filter_stable (compiler_so : list string) :
  (BuildExt.filtered compiler_so = compiler_so
   <-> ~ In "-Wstrict-prototypes" compiler_so) /\
  BuildExt.filtered (BuildExt.filtered compiler_so) = BuildExt.filtered compiler_so.
Proof.
  assert (Hfix : forall l, ~ In "-Wstrict-prototypes" l -> BuildExt.filtered l = l).
  { induction l as [|y l IH]; [reflexivity |]. intros Hnot.
    rewrite filtered_cons.
    destruct (String.eqb_spec y BuildExt.strict_prototypes) as [->|Hy].
    - elim Hnot. now left.
    - f_equal. apply IH. intros Hin. apply Hnot. now right. }
  assert (Hgone : forall l, ~ In "-Wstrict-prototypes" (BuildExt.filtered l)).
  { induction l as [|y l IH]; [intros [] |]. rewrite filtered_cons.
    destruct (String.eqb_spec y BuildExt.strict_prototypes) as [->|Hy]; [exact IH |].
    intros [Heq | Hin]; [now apply Hy | now apply IH]. }
  split; [split |].
  - intros Heq. rewrite <- Heq. apply Hgone.
  - apply Hfix.
  - apply Hfix, Hgone.
Qed.

(** * python/setup.py: the module-level paths *)

Import PosixPath.

Lemma split_sep_single (s : string) : sep_free s = true -> split_sep s = [s].
Proof.
  induction s as [|c s IH]; simpl; [reflexivity |].
  intros Hs. apply andb_prop in Hs as [Hc Hs].
  apply negb_true_iff in Hc. rewrite Hc, (IH Hs). reflexivity.
Qed.

Lemma split_sep_cons (l rest : string) :
  sep_free l = true -> split_sep (l +:+ "/" +:+ rest) = l :: split_sep rest.
Proof.
  induction l as [|c l IH]; [reflexivity |].
  rewrite append_cons. simpl.
  intros Hs. apply andb_prop in Hs as [Hc Hs].
  apply negb_true_iff in Hc. rewrite Hc, (IH Hs). reflexivity.
Qed.

Lemma split_sep_join (ls : list string) :
  ls <> [] -> forallb sep_free ls = true -> split_sep (join "/" ls) = ls.
Proof.
  induction ls as [|l ls IH]; [congruence |].
  intros _ Hall. simpl in Hall. apply andb_prop in Hall as [Hl Hall].
  destruct ls as [|l' ls].
  - simpl. now apply split_sep_single.
  - rewrite join_cons2, (split_sep_cons _ _ Hl), IH;
      [reflexivity | discriminate | exact Hall].
Qed.

Lemma solid_sep_free (c : string) : solid c = true -> sep_free c = true.
Proof. unfold solid. intros Hc. now apply andb_prop in Hc as [? _]. Qed.

Lemma solid_head (c : string) :
  solid c = true -> exists a r, c = String a r /\ is_sep a = false.
Proof.
  unfold solid. intros Hc. apply andb_prop in Hc as [Hfree Hne].
  destruct c as [|a r]; [discriminate |].
  exists a, r. split; [reflexivity |].
  simpl in Hfree. apply andb_prop in Hfree as [Ha _]. now apply negb_true_iff.
Qed.

Lemma plain_solid (c : string) : plain c = true -> solid c = true.
Proof.
  unfold plain, solid. intros Hc.
  repeat (apply andb_prop in Hc as [Hc ?]). now apply andb_true_intro.
Qed.

Lemma plain_not_dotdot (c : string) : plain c = true -> String.eqb c ".." = false.
Proof.
  unfold plain. intros Hc. apply andb_prop in Hc as [_ Hc].
  now apply negb_true_iff.
Qed.

Lemma plain_kept (c : string) :
  plain c = true -> String.eqb c "" || String.eqb c "." = false.
Proof.
  unfold plain. intros Hc.
  apply andb_prop in Hc as [Hc _]. apply andb_prop in Hc as [Hc Hdot].
  apply andb_prop in Hc as [_ Hnil].
  apply negb_true_iff in Hdot. apply negb_true_iff in Hnil.
  now rewrite Hdot, Hnil.
Qed.

Lemma forallb_weaken {A : Type} (P Q : A -> bool) (l : list A) :
  (forall x, P x = true -> Q x = true) -> forallb P l = true -> forallb Q l = true.
Proof.
  intros HPQ. induction l as [|x l IH]; [reflexivity |].
  simpl. intros Hall. apply andb_prop in Hall as [Hx Hall].
  now rewrite (HPQ _ Hx), (IH Hall).
Qed.

Lemma prefix_cons (a b : ascii) (s t : string) :
  String.prefix (String a s) (String b t)
  = if ascii_dec a b then String.prefix s t else false.
Proof. reflexivity. Qed.

Lemma prefix_nil (s : string) : String.prefix "" s = true.
Proof. now destruct s. Qed.

Lemma solid_unrooted (c : string) : solid c = true -> startswith "/" c = false.
Proof.
  intros Hc. destruct (solid_head _ Hc) as (a & r & -> & Ha).
  unfold startswith. rewrite prefix_cons.
  destruct (ascii_dec "/" a) as [<-|_]; [discriminate | reflexivity].
Qed.

Lemma endswith_sep_app (s t : string) :
  t <> "" -> endswith_sep (s +:+ t) = endswith_sep t.
Proof.
  intros Ht. induction s as [|c s IH]; [reflexivity |].
  rewrite append_cons. simpl.
  destruct (s +:+ t) as [|d u] eqn:Hst; [| exact IH].
  destruct s; [now elim Ht | discriminate].
Qed.

Lemma endswith_sep_free (s : string) : sep_free s = true -> endswith_sep s = false.
Proof.
  induction s as [|c s IH]; [reflexivity |].
  simpl. intros Hs. apply andb_prop in Hs as [Hc Hs].
  apply negb_true_iff in Hc.
  destruct s; [exact Hc | now apply IH].
Qed.

Lemma rooted_open_end (comps : list string) :
  comps <> [] -> forallb solid comps = true ->
  endswith_sep ("/" +:+ join "/" comps) = false.
Proof.
  intros Hne Hall.
  rewrite (app_removelast_last "" Hne) in Hall |- *.
  rewrite forallb_app in Hall. apply andb_prop in Hall as [_ Hlast].
  simpl in Hlast. apply andb_prop in Hlast as [Hlast _].
  destruct (join_snoc "/" (List.last comps "") (removelast comps)) as [front ->].
  rewrite <- append_assoc, endswith_sep_app.
  - apply endswith_sep_free. now apply solid_sep_free.
  - destruct (solid_head _ Hlast) as (a & r & -> & _). discriminate.
Qed.

(** Joining one more component onto a rooted path. *)
Lemma rooted_join (comps : list string) (x : string) :
  forallb solid comps = true -> solid x = true ->
  path_join ("/" +:+ join "/" comps) [x] = "/" +:+ join "/" (comps ++ [x])%list.
Proof.
  intros Hall Hx. unfold path_join. cbn [fold_left]. unfold join_step.
  rewrite (solid_unrooted _ Hx).
  destruct comps as [|c comps]; [reflexivity |].
  rewrite (rooted_open_end (c :: comps)); [| discriminate | exact Hall].
  change (is_empty ("/" +:+ join "/" (c :: comps))) with false. cbn [orb].
  rewrite join_app by discriminate. now rewrite !append_assoc.
Qed.

Lemma norm_fold_plain (n : nat) (cs acc : list string) :
  forallb plain cs = true -> fold_left (norm_step n) cs acc = (acc ++ cs)%list.
Proof.
  revert acc. induction cs as [|c cs IH]; intros acc Hall.
  - now rewrite app_nil_r.
  - simpl in Hall. apply andb_prop in Hall as [Hc Hall].
    cbn [fold_left]. unfold norm_step at 2.
    rewrite (plain_kept _ Hc), (plain_not_dotdot _ Hc). cbn [negb orb].
    rewrite (IH _ Hall), <- app_assoc. reflexivity.
Qed.

Lemma norm_dotdot (comps : list string) :
  forallb plain comps = true -> norm_step 1 comps ".." = removelast comps.
Proof.
  intros Hall. unfold norm_step.
  destruct comps as [|c comps]; [reflexivity |].
  rewrite (bool_decide_eq_false_2 (c :: comps = [])) by discriminate.
  assert (Hlast : String.eqb (List.last (c :: comps) "") ".." = false).
  { apply plain_not_dotdot.
    rewrite (app_removelast_last "" (l := c :: comps)) in Hall by discriminate.
    rewrite forallb_app in Hall. apply andb_prop in Hall as [_ Hl].
    simpl in Hl. now apply andb_prop in Hl as [Hl _]. }
  rewrite Hlast. reflexivity.
Qed.

(** [normpath] on a rooted path of components. *)
Lemma normpath_rooted (comps : list string) :
  comps <> [] -> forallb solid comps = true ->
  normpath ("/" +:+ join "/" comps)
  = "/" +:+ join "/" (fold_left (norm_step 1) comps []).
Proof.
  intros Hne Hall. unfold normpath.
  assert (Hsplit : split_sep ("/" +:+ join "/" comps) = "" :: comps).
  { change ("/" +:+ join "/" comps) with ("" +:+ "/" +:+ join "/" comps).
    rewrite split_sep_cons by reflexivity.
    rewrite split_sep_join; [reflexivity | exact Hne |].
    now apply (forallb_weaken solid sep_free comps solid_sep_free). }
  rewrite Hsplit.
  destruct comps as [|c comps]; [congruence |].
  simpl in Hall. apply andb_prop in Hall as [Hc Hall].
  destruct (solid_head _ Hc) as (a & r & -> & Ha).
  assert (Hjoin : exists u, join "/" (String a r :: comps) = String a u).
  { destruct comps; [now exists r | eexists; rewrite join_cons2; reflexivity]. }
  destruct Hjoin as [u Hu]. rewrite Hu.
  assert (Hone : startswith "/" ("/" +:+ String a u) = true).
  { unfold startswith. change ("/" +:+ String a u) with (String "/" (String a u)).
    rewrite prefix_cons, prefix_nil. now destruct (ascii_dec "/" "/"). }
  assert (Htwo : startswith "//" ("/" +:+ String a u) = false).
  { unfold startswith. change ("/" +:+ String a u) with (String "/" (String a u)).
    rewrite !prefix_cons.
    destruct (ascii_dec "/" "/"); [| reflexivity].
    destruct (ascii_dec "/" a) as [<-|_]; [discriminate | reflexivity]. }
  rewrite Hone, Htwo. cbn [andb is_empty append].
  rewrite <- Hu. cbn [fold_left]. reflexivity.
Qed.

Lemma forallb_removelast {A : Type} (P : A -> bool) (l : list A) :
  forallb P l = true -> forallb P (removelast l) = true.
Proof.
  induction l as [|x l IH]; [reflexivity |].
  intros Hall. simpl in Hall. apply andb_prop in Hall as [Hx Hall].
  destruct l as [|y l]; [reflexivity |].
  change (removelast (x :: y :: l)) with (x :: removelast (y :: l)).
  cbn [forallb]. now rewrite Hx, IH.
Qed.

Lemma abspath_rooted (cwd : string) (comps : list string) :
  comps <> [] -> forallb solid comps = true ->
  abspath cwd ("/" +:+ join "/" comps)
  = "/" +:+ join "/" (fold_left (norm_step 1) comps []).
Proof.
  intros Hne Hall. unfold abspath.
  assert (Hroot : startswith "/" ("/" +:+ join "/" comps) = true).
  { unfold startswith.
    change ("/" +:+ join "/" comps) with (String "/" (join "/" comps)).
    rewrite prefix_cons, prefix_nil. now destruct (ascii_dec "/" "/"). }
  rewrite Hroot. now apply normpath_rooted.
Qed.

(** The parent directory, and a child of the parent. *)
Lemma abspath_parent (cwd : string) (comps : list string) :
  forallb plain comps = true ->
  abspath cwd (path_join (rooted comps) [".."]) = rooted (removelast comps).
Proof.
  intros Hall. unfold rooted.
  pose proof (forallb_weaken plain solid comps plain_solid Hall) as Hsolid.
  rewrite (rooted_join comps ".." Hsolid eq_refl).
  rewrite abspath_rooted.
  - rewrite fold_left_app, (norm_fold_plain 1 comps [] Hall), app_nil_l.
    cbn [fold_left]. now rewrite norm_dotdot.
  - destruct comps; discriminate.
  - rewrite forallb_app, Hsolid. reflexivity.
Qed.

Lemma abspath_sibling (cwd : string) (comps : list string) (x : string) :
  forallb plain comps = true -> plain x = true ->
  abspath cwd (path_join (rooted comps) [".."; x]) = rooted (removelast comps ++ [x]).
Proof.
  intros Hall Hx. unfold rooted.
  pose proof (forallb_weaken plain solid comps plain_solid Hall) as Hsolid.
  assert (Hup : forallb solid (comps ++ [".."]) = true)
    by (rewrite forallb_app, Hsolid; reflexivity).
  change (path_join ("/" +:+ join "/" comps) [".."; x])
    with (path_join (path_join ("/" +:+ join "/" comps) [".."]) [x]).
  rewrite (rooted_join comps ".." Hsolid eq_refl).
  rewrite (rooted_join (comps ++ [".."]) x Hup (plain_solid _ Hx)).
  rewrite abspath_rooted.
  - rewrite !fold_left_app, (norm_fold_plain 1 comps [] Hall), app_nil_l.
    cbn [fold_left]. rewrite norm_dotdot by exact Hall.
    change (norm_step 1 (removelast comps) x)
      with (fold_left (norm_step 1) [x] (removelast comps)).
    rewrite norm_fold_plain; [reflexivity |]. cbn [forallb]. now rewrite Hx.
  - destruct comps; discriminate.
  - rewrite forallb_app, Hup. cbn [forallb]. now rewrite (plain_solid _ Hx).
Qed.

(** X14: when the script's directory is the absolute path of the plain
    components [comps], [base] is its parent directory (the root is its own
    parent), and [src_dir], [vendordir] and [builddir] are the entries
    [src], [vendor] and [.build] of [base]; the working directory plays no
    part. *)
Theorem module_paths (cwd : string) (comps : list string) :
  forallb plain comps = true ->
  SetupPaths.base cwd (rooted comps) = rooted (removelast comps) /\
  SetupPaths.src_dir cwd (rooted comps) = rooted (removelast comps ++ ["src"]) /\
  SetupPaths.vendordir cwd (rooted comps) = rooted (removelast comps ++ ["vendor"]) /\
  SetupPaths.builddir cwd (rooted comps) = rooted (removelast comps ++ [".build"]) /\
  SetupPaths.src_dir cwd (rooted comps)
  = path_join (SetupPaths.base cwd (rooted comps)) ["src"] /\
  SetupPaths.vendordir cwd (rooted comps)
  = path_join (SetupPaths.base cwd (rooted comps)) ["vendor"] /\
  SetupPaths.builddir cwd (rooted comps)
  = path_join (SetupPaths.base cwd (rooted comps)) [".build"].
Proof.
  intros Hall.
  unfold SetupPaths.base, SetupPaths.src_dir, SetupPaths.vendordir, SetupPaths.builddir.
  rewrite (abspath_parent cwd comps Hall).
  rewrite !(abspath_sibling cwd comps) by (exact Hall || reflexivity).
  pose proof (forallb_weaken plain solid _ plain_solid
                (forallb_removelast plain comps Hall)) as Hparent.
  unfold rooted.
  rewrite !(rooted_join (removelast comps)) by (exact Hparent || reflexivity).
  repeat split.
Qed.

(** X15: the extension built from the module-level paths looks for headers
    in [src] and for the library, at link time and at run time, in [.build],
    both next to the script's directory. *)
Theorem extension_directories (cwd : string) (comps pkgs argv : list string) :
  forallb plain comps = true ->
  Setup.include_dirs <$> Setup.ext_modules
    (Setup.main (SetupPaths.src_dir cwd (rooted comps))
                (SetupPaths.builddir cwd (rooted comps)) pkgs argv)
  = [[rooted (removelast comps ++ ["src"])]] /\
  Setup.library_dirs <$> Setup.ext_modules
    (Setup.main (SetupPaths.src_dir cwd (rooted comps))
                (SetupPaths.builddir cwd (rooted comps)) pkgs argv)
  = [[rooted (removelast comps ++ [".build"])]] /\
  Setup.runtime_library_dirs <$> Setup.ext_modules
    (Setup.main (SetupPaths.src_dir cwd (rooted comps))
                (SetupPaths.builddir cwd (rooted comps)) pkgs argv)
  = [[rooted (removelast comps ++ [".build"])]].
Proof.
  intros Hall.
  unfold SetupPaths.src_dir, SetupPaths.builddir.
  rewrite !(abspath_sibling cwd comps) by (exact Hall || reflexivity).
  repeat split.
Qed.

(** ** The further properties at concrete inputs *)

Lemma save_touches_only_output_witness :
  files (snd (save_pkg_config_descriptor scenario_env_rooted (SStr "foo") "lwpr-new.pc"
                installed_tree)) !! "lwpr.pc"
  = files installed_tree !! "lwpr.pc" /\
  unwritable (snd (save_pkg_config_descriptor scenario_env_rooted (SStr "foo")
                     "lwpr-new.pc" installed_tree))
  = unwritable installed_tree.
Proof.
  apply (save_touches_only_output scenario_env_rooted (SStr "foo")
           "lwpr-new.pc" "lwpr.pc" installed_tree).
  vm_compute. discriminate.
Defined.

Lemma save_writes_rendered_text_witness :
  exists text,
    render scenario_env_rooted (SStr "foo") = ret text /\
    save_pkg_config_descriptor scenario_env_rooted (SStr "foo") "lwpr.pc" installed_tree
    = (ret tt, {| files := <["lwpr.pc" := text]> (files installed_tree);
                  unwritable := unwritable installed_tree |}) /\
    files (snd (save_pkg_config_descriptor scenario_env_rooted (SStr "foo") "lwpr.pc"
                  installed_tree)) !! "lwpr.pc"
    = Some text.
Proof.
  apply (save_writes_rendered_text scenario_env_rooted (SStr "foo") "lwpr.pc"
           installed_tree).
  - intros k Hk. cbn in Hk.
    repeat (destruct Hk as [<- | Hk]; [eexists; vm_compute; reflexivity |]).
    contradiction.
  - refine (bool_decide_unpack _ _). vm_compute. exact I.
Defined.

Lemma render_fails_only_on_missing_key_witness :
  exists k,
    In k required_keys /\ scenario_env !! k = None /\
    first_missing scenario_env = Some k /\ KeyError "lwpr" = KeyError k.
Proof.
  apply (render_fails_only_on_missing_key scenario_env (SStr "foo")).
  vm_compute. reflexivity.
Defined.

Lemma render_reads_required_keys_only_witness :
  render scenario_env_rooted (SStr "foo") = render crowded_env (SStr "foo").
Proof.
  apply (render_reads_required_keys_only scenario_env_rooted crowded_env).
  intros k Hk. cbn in Hk.
  repeat (destruct Hk as [<- | Hk]; [vm_compute; reflexivity |]).
  contradiction.
Defined.

Lemma metadata_block_witness :
  exists ls,
    scenario_text = join nl ls /\ length ls = 12%nat /\
    (single_line_values scenario_env_rooted (SStr "foo") = true ->
     lines scenario_text = ls) /\
    ls !! 5%nat = Some "" /\
    ls !! 6%nat = Some ("Name: " +:+ py_str (SStr "foo")) /\
    ls !! 7%nat = Some "Description: The Dilithium Dynamic Programming library" /\
    ls !! 8%nat = Some "Version: 0.0.1".
Proof.
  apply (metadata_block scenario_env_rooted (SStr "foo")). vm_compute. reflexivity.
Defined.

Lemma empty_sequences_witness :
  exists ls,
    bare_text = join nl ls /\ length ls = 12%nat /\
    (single_line_values bare_env (SStr "foo") = true -> lines bare_text = ls) /\
    ls !! 9%nat = Some ("Cflags: " +:+ py_str (CLVar ["-O2"]) +:+ "  -I${includedir}") /\
    ls !! 10%nat
    = Some ("Libs: " +:+ py_str (CLVar ["-s"]) +:+ "  -L${libdir} -l"
            +:+ py_str (SStr "foo")).
Proof.
  apply (empty_sequences bare_env (SStr "foo") (CLVar ["-O2"]) (CLVar [])
           (CLVar ["-s"]) (CLVar []) (CLVar []));
    vm_compute; reflexivity.
Defined.

Lemma string_path_iterated_by_character_witness :
  exists ls,
    string_path_text = join nl ls /\ length ls = 12%nat /\
    (single_line_values string_path_env (SStr "foo") = true ->
     lines string_path_text = ls) /\
    ls !! 9%nat
    = Some ("Cflags: " +:+ py_str (CLVar ["-O2"]) +:+ " "
            +:+ join " " ((fun c => "-I" +:+ c) <$> chars "/inc") +:+ " -I${includedir}").
Proof.
  apply (string_path_iterated_by_character string_path_env (SStr "foo"));
    vm_compute; reflexivity.
Defined.

Lemma save_distinct_paths_commute_witness :
  snd (save_pkg_config_descriptor bare_env (SStr "bar") "bar.pc"
         (snd (save_pkg_config_descriptor scenario_env_rooted (SStr "foo") "lwpr.pc"
                 installed_tree)))
  = snd (save_pkg_config_descriptor scenario_env_rooted (SStr "foo") "lwpr.pc"
           (snd (save_pkg_config_descriptor bare_env (SStr "bar") "bar.pc"
                   installed_tree))) /\
  fst (save_pkg_config_descriptor bare_env (SStr "bar") "bar.pc"
         (snd (save_pkg_config_descriptor scenario_env_rooted (SStr "foo") "lwpr.pc"
                 installed_tree)))
  = fst (save_pkg_config_descriptor bare_env (SStr "bar") "bar.pc" installed_tree) /\
  fst (save_pkg_config_descriptor scenario_env_rooted (SStr "foo") "lwpr.pc"
         (snd (save_pkg_config_descriptor bare_env (SStr "bar") "bar.pc"
                 installed_tree)))
  = fst (save_pkg_config_descriptor scenario_env_rooted (SStr "foo") "lwpr.pc"
           installed_tree).
Proof.
  apply (save_distinct_paths_commute scenario_env_rooted bare_env (SStr "foo")
           (SStr "bar") "lwpr.pc" "bar.pc" installed_tree).
  vm_compute. discriminate.
Defined.

Lemma skeleton_substitution_witness :
  (exists text, Template.substitute pc_template scenario_mapping = ret text) /\
  Template.substitute pc_template (delete "libdir" (delete "prefix" scenario_mapping))
  = raise (KeyError "prefix") /\
  (exists j, delete "libs" scenario_mapping !! j = None /\
             Template.substitute pc_template (delete "libs" scenario_mapping)
             = raise (KeyError j)).
Proof.
  split; [| split].
  - apply (proj1 (skeleton_substitution scenario_mapping)).
    intros i Hi. cbn in Hi.
    repeat (destruct Hi as [<- | Hi]; [eexists; vm_compute; reflexivity |]).
    contradiction.
  - apply (proj1 (proj2 (skeleton_substitution
                           (delete "libdir" (delete "prefix" scenario_mapping))))).
    vm_compute. reflexivity.
  - apply (proj1 (proj2 (proj2 (skeleton_substitution (delete "libs" scenario_mapping))))
             "libs"); [cbn; tauto | vm_compute; reflexivity].
Defined.

Lemma module_paths_witness :
  SetupPaths.base "/tmp" (PosixPath.rooted ["home"; "user"; "lwpr-lite"; "python"])
  = PosixPath.rooted (removelast ["home"; "user"; "lwpr-lite"; "python"]) /\
  SetupPaths.src_dir "/tmp" (PosixPath.rooted ["home"; "user"; "lwpr-lite"; "python"])
  = PosixPath.rooted (removelast ["home"; "user"; "lwpr-lite"; "python"] ++ ["src"]) /\
  SetupPaths.vendordir "/tmp" (PosixPath.rooted ["home"; "user"; "lwpr-lite"; "python"])
  = PosixPath.rooted (removelast ["home"; "user"; "lwpr-lite"; "python"] ++ ["vendor"]) /\
  SetupPaths.builddir "/tmp" (PosixPath.rooted ["home"; "user"; "lwpr-lite"; "python"])
  = PosixPath.rooted (removelast ["home"; "user"; "lwpr-lite"; "python"] ++ [".build"]) /\
  SetupPaths.src_dir "/tmp" (PosixPath.rooted ["home"; "user"; "lwpr-lite"; "python"])
  = PosixPath.path_join
      (SetupPaths.base "/tmp" (PosixPath.rooted ["home"; "user"; "lwpr-lite"; "python"]))
      ["src"] /\
  SetupPaths.vendordir "/tmp" (PosixPath.rooted ["home"; "user"; "lwpr-lite"; "python"])
  = PosixPath.path_join
      (SetupPaths.base "/tmp" (PosixPath.rooted ["home"; "user"; "lwpr-lite"; "python"]))
      ["vendor"] /\
  SetupPaths.builddir "/tmp" (PosixPath.rooted ["home"; "user"; "lwpr-lite"; "python"])
  = PosixPath.path_join
      (SetupPaths.base "/tmp" (PosixPath.rooted ["home"; "user"; "lwpr-lite"; "python"]))
      [".build"].
Proof.
  apply (module_paths "/tmp" ["home"; "user"; "lwpr-lite"; "python"]).
  vm_compute. reflexivity.
Defined.

Lemma extension_directories_witness :
  Setup.include_dirs <$> Setup.ext_modules
    (Setup.main
       (SetupPaths.src_dir "/tmp" (PosixPath.rooted ["home"; "user"; "lwpr-lite"; "python"]))
       (SetupPaths.builddir "/tmp" (PosixPath.rooted ["home"; "user"; "lwpr-lite"; "python"]))
       [] ["setup.py"; "build_ext"])
  = [[PosixPath.rooted (removelast ["home"; "user"; "lwpr-lite"; "python"] ++ ["src"])]] /\
  Setup.library_dirs <$> Setup.ext_modules
    (Setup.main
       (SetupPaths.src_dir "/tmp" (PosixPath.rooted ["home"; "user"; "lwpr-lite"; "python"]))
       (SetupPaths.builddir "/tmp" (PosixPath.rooted ["home"; "user"; "lwpr-lite"; "python"]))
       [] ["setup.py"; "build_ext"])
  = [[PosixPath.rooted (removelast ["home"; "user"; "lwpr-lite"; "python"] ++ [".build"])]] /\
  Setup.runtime_library_dirs <$> Setup.ext_modules
    (Setup.main
       (SetupPaths.src_dir "/tmp" (PosixPath.rooted ["home"; "user"; "lwpr-lite"; "python"]))
       (SetupPaths.builddir "/tmp" (PosixPath.rooted ["home"; "user"; "lwpr-lite"; "python"]))
       [] ["setup.py"; "build_ext"])
  = [[PosixPath.rooted (removelast ["home"; "user"; "lwpr-lite"; "python"] ++ [".build"])]].
Proof.
  apply (extension_directories "/tmp" ["home"; "user"; "lwpr-lite"; "python"]).
  vm_compute. reflexivity.
Defined.
